(** * Pydroid math solver: the dispatch and normalisation layer of newfile.py

    The program is a read-eval-print loop that classifies each typed line,
    rewrites it into the syntax of a computer-algebra backend (sympy) and
    prints a formatted answer.  This development embeds

    - the Python string operations the program relies on ([Py]),
    - the exception discipline of its [try]/[except] blocks,
    - the backend as an abstract interface ([Backend]),
    - every function of newfile.py, with the names it has there,

    and proves the properties stated for them. *)

From Stdlib Require Import Ascii String.
From Stdlib Require Import List NArith Bool Lia.
Import ListNotations.

Set Implicit Arguments.

(** ** Python strings *)

Module Py.

(** A Python [str] is a sequence of Unicode code points. *)
Definition char := N.
Definition str := list char.

(** ASCII literals of the source, as code points. *)
Fixpoint lit (s : string) : str :=
  match s with
  | EmptyString => []
  | String a s' => N_of_ascii a :: lit s'
  end.
Arguments lit s%_string.

Definition eqb_str (a b : str) : bool :=
  if list_eq_dec N.eq_dec a b then true else false.

(** [str.isspace] on one code point, the table [str.strip()] and
    [str.split()] use (CPython's [_PyUnicode_IsWhitespace]). *)
Definition is_space (c : char) : bool :=
  ((9 <=? c) && (c <=? 13) || (28 <=? c) && (c <=? 32)
   || (c =? 133) || (c =? 160) || (c =? 5760)
   || (8192 <=? c) && (c <=? 8202)
   || (c =? 8232) || (c =? 8233) || (c =? 8239) || (c =? 8287)
   || (c =? 12288))%N.

Fixpoint lstrip (s : str) : str :=
  match s with
  | [] => []
  | c :: s' => if is_space c then lstrip s' else s
  end.

Definition rstrip (s : str) : str := rev (lstrip (rev s)).

(** [s.strip()] *)
Definition strip (s : str) : str := rstrip (lstrip s).

(** [s.startswith(p)] *)
Fixpoint startswith (s p : str) : bool :=
  match p, s with
  | [], _ => true
  | _ :: _, [] => false
  | a :: p', c :: s' => (c =? a)%N && startswith s' p'
  end.

(** [s.startswith((p1, ..., pn))] *)
Definition startswith_any (s : str) (ps : list str) : bool :=
  existsb (startswith s) ps.

(** [s.endswith(p)] *)
Definition endswith (s p : str) : bool := startswith (rev s) (rev p).

(** [p in s] *)
Fixpoint contains (s p : str) : bool :=
  startswith s p ||
  match s with
  | [] => false
  | _ :: s' => contains s' p
  end.

(** [s.replace(old, new)]: occurrences of [old] are found left to right and
    do not overlap.  [skip] counts the characters of a matched occurrence
    still to be dropped. *)
Fixpoint replace_from (old new : str) (skip : nat) (s : str) : str :=
  match s with
  | [] => []
  | c :: s' =>
      match skip with
      | S k => replace_from old new k s'
      | O =>
          if startswith s old
          then new ++ replace_from old new (length old - 1) s'
          else c :: replace_from old new 0 s'
      end
  end.

Definition replace (old new s : str) : str :=
  match old with
  | [] => new ++ flat_map (fun c => c :: new) s
  | _ :: _ => replace_from old new 0 s
  end.

(** [s[n:]] and [s[:-n]] for a literal [n]. *)
Definition slice_from (n : nat) (s : str) : str := skipn n s.
Definition slice_to_minus (n : nat) (s : str) : str :=
  firstn (length s - n) s.

(** [s.split(sep, 1)]: at most one split, at the first occurrence. *)
Fixpoint cut (sep s : str) : option (str * str) :=
  if startswith s sep then Some ([], skipn (length sep) s)
  else match s with
       | [] => None
       | c :: s' =>
           match cut sep s' with
           | Some (a, b) => Some (c :: a, b)
           | None => None
           end
       end.

Definition split1 (sep s : str) : list str :=
  match cut sep s with
  | Some (a, b) => [a; b]
  | None => [s]
  end.

(** [s.split(None, 1)]: split on runs of whitespace, at most once. *)
Fixpoint span_word (s : str) : str * str :=
  match s with
  | [] => ([], [])
  | c :: s' =>
      if is_space c then ([], s)
      else let (w, r) := span_word s' in (c :: w, r)
  end.

Definition split_ws1 (s : str) : list str :=
  match lstrip s with
  | [] => []
  | s1 =>
      let (w, r) := span_word s1 in
      match lstrip r with
      | [] => [w]
      | r' => [w; r']
      end
  end.

(** [str.lower] restricted to ASCII letters; the instance used to run the
    program on ASCII input.  The development itself is stated for an
    arbitrary [lower]. *)
Definition ascii_lower_char (c : char) : char :=
  if ((65 <=? c) && (c <=? 90))%N then (c + 32)%N else c.
Definition ascii_lower (s : str) : str := map ascii_lower_char s.

Definition is_upper (c : char) : bool := ((65 <=? c) && (c <=? 90))%N.

End Py.
Import Py.

(** The non-ASCII characters the source mentions. *)
Definition MULTIPLICATION_SIGN : char := 215%N.   (* U+00D7 *)
Definition DIVISION_SIGN : char := 247%N.         (* U+00F7 *)
Definition SQUARE_ROOT : char := 8730%N.          (* U+221A *)
Definition EM_DASH : char := 8212%N.              (* U+2014 *)
Definition EN_DASH : char := 8211%N.              (* U+2013 *)
Definition INTEGRAL_SIGN : char := 8747%N.        (* U+222B *)
Definition NL : str := [10%N].
Definition SPACE : char := 32%N.

(** ** normalize (newfile.py, lines 38-47) *)

Definition normalize (s : str) : str :=
  let s := replace (lit "^") (lit "**") s in
  let s := replace [MULTIPLICATION_SIGN] (lit "*") s in
  let s := replace [DIVISION_SIGN] (lit "/") s in
  let s := replace (lit ":") (lit "/") s in
  let s := replace [SQUARE_ROOT] (lit "sqrt") s in
  let s := replace [EN_DASH] (lit "-") (replace [EM_DASH] (lit "-") s) in
  strip s.


(** The characters normalize rewrites. *)
Definition special_chars : list char :=
  lit "^" ++ [MULTIPLICATION_SIGN; DIVISION_SIGN] ++ lit ":"
  ++ [SQUARE_ROOT; EM_DASH; EN_DASH].

(** What normalize writes for one character: the rewriting of all seven
    characters at once. *)
Definition rewrite_char (c : char) : str :=
  if (c =? 94)%N then lit "**"
  else if (c =? MULTIPLICATION_SIGN)%N then lit "*"
  else if (c =? DIVISION_SIGN)%N then lit "/"
  else if (c =? 58)%N then lit "/"
  else if (c =? SQUARE_ROOT)%N then lit "sqrt"
  else if (c =? EM_DASH)%N then lit "-"
  else if (c =? EN_DASH)%N then lit "-"
  else [c].

(** ** Exceptions, results and printing *)

(** The exception classes the [except] clauses of the program tell apart.
    [KeyboardInterrupt], [SystemExit] and the classes of
    [OtherBaseException] ([GeneratorExit], and what a library derives from
    [BaseException] itself) are not subclasses of [Exception];
    [ImportError] and every other error are. *)
Inductive exc_class :=
| KeyboardInterrupt
| SystemExit
| OtherBaseException
| ImportError
| OtherException.

Record exn := MkExn { exn_class : exc_class; exn_msg : str }.

(** What [input] raises at the end of the input, and what Ctrl-C raises. *)
Definition EOFError : exn :=
  MkExn OtherException (lit "EOF when reading a line").
Definition interrupt : exn := MkExn KeyboardInterrupt [].
(** What [sys.exit()] raises. *)
Definition system_exit : exn := MkExn SystemExit [].

(** [isinstance(e, Exception)] *)
Definition is_Exception (e : exn) : bool :=
  match exn_class e with
  | KeyboardInterrupt | SystemExit | OtherBaseException => false
  | ImportError | OtherException => true
  end.

Inductive result (A : Type) : Type :=
| Ok (a : A)
| Raise (e : exn).
Arguments Ok {A} a.
Arguments Raise {A} e.

(** A computation prints lines, then returns or raises. *)
Definition io (A : Type) : Type := (list str * result A)%type.

Definition ret {A} (a : A) : io A := ([], Ok a).
Definition call {A} (r : result A) : io A := ([], r).
Definition raise {A} (e : exn) : io A := ([], Raise e).
Definition print (s : str) : io unit := ([s], Ok tt).

Definition bind {A B} (m : io A) (k : A -> io B) : io B :=
  match m with
  | (out, Ok a) => let (out', r) := k a in (out ++ out', r)
  | (out, Raise e) => (out, Raise e)
  end.

Notation "x <- m ;; k" := (bind m (fun x => k))
  (at level 61, m at next level, right associativity).
Notation "' pat <- m ;; k" :=
  (bind m (fun x => match x with pat => k end))
  (at level 61, pat pattern, m at next level, right associativity).
Notation "m ;; k" := (bind m (fun _ => k))
  (at level 61, right associativity).

Definition printed {A} (m : io A) : list str := fst m.
Definition returned {A} (m : io A) : result A := snd m.

(** The [except] clauses of the source. *)
Inductive except_clause :=
| except_all                 (* except: *)
| except_Exception           (* except Exception as e: *)
| except_ImportError         (* except ImportError: *)
| except_KeyboardInterrupt.  (* except KeyboardInterrupt: *)

Definition catches (c : except_clause) (e : exn) : bool :=
  match c, exn_class e with
  | except_all, _ => true
  | except_Exception, (ImportError | OtherException) => true
  | except_ImportError, ImportError => true
  | except_KeyboardInterrupt, KeyboardInterrupt => true
  | _, _ => false
  end.

(** [try: body  except c1: h1  except c2: h2 ...]: the first clause that
    matches handles the exception; what was printed before stays printed. *)
Definition try_except {A} (body : io A)
    (clauses : list (except_clause * (exn -> io A))) : io A :=
  match body with
  | (out, Ok a) => (out, Ok a)
  | (out, Raise e) =>
      match find (fun c => catches (fst c) e) clauses with
      | Some (_, h) => let (out', r) := h e in (out ++ out', r)
      | None => (out, Raise e)
      end
  end.

(** A computation is tame when every exception it raises is an instance of
    [Exception]. *)
Definition tame {A} (m : io A) : Prop :=
  forall e, returned m = Raise e -> is_Exception e = true.

(** A computation settles on [P] when it prints nothing and either returns a
    value that satisfies [P] or raises an instance of [Exception]. *)
Definition settles {A} (P : A -> Prop) (m : io A) : Prop :=
  printed m = []
  /\ match returned m with
     | Ok a => P a
     | Raise e => is_Exception e = true
     end.

(** [a, b = parts] *)
Definition unpack2 (parts : list str) : io (str * str) :=
  match parts with
  | [a; b] => ret (a, b)
  | _ :: _ :: _ :: _ =>
      raise (MkExn OtherException
               (lit "too many values to unpack (expected 2)"))
  | [_] =>
      raise (MkExn OtherException
               (lit "not enough values to unpack (expected 2, got 1)"))
  | [] =>
      raise (MkExn OtherException
               (lit "not enough values to unpack (expected 2, got 0)"))
  end.

(** ** The computer-algebra backend *)

Module Sympy.

(** What the program uses of sympy.  Every call may raise.  A Python set is
    seen through the order in which [list(...)] enumerates it. *)
Record Backend := {
  expr : Type;
  (** [parse_expr(s, transformations=transformations)] *)
  parse_expr : str -> result expr;
  (** [str(e)], as the f-strings call it *)
  show : expr -> str;
  (** the module-level [x = symbols('x')] *)
  x : expr;
  (** [list(e.free_symbols)] *)
  free_symbols : expr -> result (list expr);
  (** [list(a.union(b))] *)
  union : list expr -> list expr -> list expr;
  (** [Eq(L, R)] *)
  Eq : expr -> expr -> result expr;
  (** [L.equals(R)]: [True], [False] or [None] *)
  equals : expr -> expr -> result (option bool);
  (** [solveset(eq, var, domain=S.Complexes)] *)
  solveset : expr -> expr -> result expr;
  integrate : expr -> expr -> result expr;
  diff : expr -> expr -> result expr;
  (** [obj.doit()] *)
  doit : expr -> result expr;
  (** [f.evalf()] *)
  evalf : expr -> result expr;
  simplify : expr -> result expr;
  (** [plot(sym, show=True)] *)
  plot : expr -> result unit;
  (** the mathematical meaning of equality between expressions *)
  math_eq : expr -> expr -> Prop
}.


(** A backend whose every error is an instance of [Exception], as the
    errors an input can cause are. *)
Record Ordinary (B : Backend) : Prop := {
  parse_expr_exc : forall s e,
    parse_expr B s = Raise e -> is_Exception e = true;
  free_symbols_exc : forall f e,
    free_symbols B f = Raise e -> is_Exception e = true;
  Eq_exc : forall L R e, Eq B L R = Raise e -> is_Exception e = true;
  equals_exc : forall L R e, equals B L R = Raise e -> is_Exception e = true;
  solveset_exc : forall q v e,
    solveset B q v = Raise e -> is_Exception e = true;
  integrate_exc : forall f v e,
    integrate B f v = Raise e -> is_Exception e = true;
  diff_exc : forall f v e, diff B f v = Raise e -> is_Exception e = true;
  doit_exc : forall f e, doit B f = Raise e -> is_Exception e = true;
  evalf_exc : forall f e, evalf B f = Raise e -> is_Exception e = true;
  simplify_exc : forall f e, simplify B f = Raise e -> is_Exception e = true;
  plot_exc : forall f e, plot B f = Raise e -> is_Exception e = true
}.

(** The backend [B] with another parser in the place of its own. *)
Definition with_parser (B : Backend) (p : str -> result (expr B)) : Backend :=
  {| expr := expr B;
     parse_expr := p;
     show := show B;
     x := x B;
     free_symbols := free_symbols B;
     union := union B;
     Eq := Eq B;
     equals := equals B;
     solveset := solveset B;
     integrate := integrate B;
     diff := diff B;
     doit := doit B;
     evalf := evalf B;
     simplify := simplify B;
     plot := plot B;
     math_eq := math_eq B |}.

End Sympy.

(** Truth value of [L.equals(R)] in a conditional expression. *)
Definition truthy (b : option bool) : bool :=
  match b with
  | Some true => true
  | Some false | None => false
  end.

(** ** The program (newfile.py) *)

Section Program.

(** [str.lower], a function of the Unicode tables of the interpreter. *)
Variable lower : str -> str.
Variable B : Sympy.Backend.

Let expr := Sympy.expr B.

(** try_parse (lines 49-52) *)
Definition try_parse (e : str) : io expr :=
  let e := normalize e in
  call (Sympy.parse_expr B e).

(** [list(f.free_symbols)[0] if f.free_symbols else x] *)
Definition first_symbol_or_x (f : expr) : io expr :=
  fs <- call (Sympy.free_symbols B f) ;;
  match fs with
  | v :: _ => ret v
  | [] => ret (Sympy.x B)
  end.

(** handle_equation (lines 54-72) *)
Definition handle_equation (text : str) : io str :=
  try_except
    (' (left_, right_) <- unpack2 (split1 (lit "=") text) ;;
     L <- try_parse left_ ;;
     R <- try_parse right_ ;;
     eq <- call (Sympy.Eq B L R) ;;
     fsL <- call (Sympy.free_symbols B L) ;;
     fsR <- call (Sympy.free_symbols B R) ;;
     let vars_ := Sympy.union B fsL fsR in
     match vars_ with
     | [] =>
         verdict <- call (Sympy.equals B L R) ;;
         ret (lit "Tenglama: " ++ left_ ++ lit " = " ++ right_ ++ NL
              ++ lit "Natija: "
              ++ (if truthy verdict then lit "To'g'ri" else lit "Noto'g'ri"))
     | var :: _ =>
         sol <- call (Sympy.solveset B eq var) ;;
         ret (lit "Tenglama: " ++ left_ ++ lit " = " ++ right_ ++ NL
              ++ lit "O'zgaruvchi: " ++ Sympy.show B var ++ NL
              ++ lit "Yechim: " ++ Sympy.show B sol)
     end)
    [(except_Exception,
      fun e => ret (lit "Tenglamada xato: " ++ exn_msg e))].

(** The text handle_integral parses (lines 76-79). *)
Definition integral_operand (text : str) : str :=
  let t := strip (replace [INTEGRAL_SIGN] []
                    (replace (lit "integrate") []
                       (replace (lit "integral") [] (lower text)))) in
  if endswith t (lit "dx") then strip (slice_to_minus 2 t) else t.

(** The first step of handle_integral (line 76), on the lowercased text:
    the words of the command are deleted and the rest is stripped. *)
Definition without_integral_words (t : str) : str :=
  strip (replace [INTEGRAL_SIGN] []
           (replace (lit "integrate") [] (replace (lit "integral") [] t))).

(** handle_integral (lines 74-86) *)
Definition handle_integral (text : str) : io str :=
  try_except
    (let t := integral_operand text in
     f <- try_parse t ;;
     var <- first_symbol_or_x f ;;
     res <- call (Sympy.integrate B f var) ;;
     ret ([INTEGRAL_SIGN] ++ lit " (" ++ Sympy.show B f ++ lit ") d"
          ++ Sympy.show B var ++ lit " = " ++ Sympy.show B res ++ lit " + C"))
    [(except_Exception,
      fun e => ret (lit "Integral xatosi: " ++ exn_msg e))].

(** The text handle_derivative parses (lines 90-96). *)
Definition derivative_operand (text : str) : str :=
  let t := lower text in
  let t :=
    if startswith t (lit "d/d") then
      match split_ws1 text with
      | _ :: p1 :: _ => p1
      | _ => t
      end
    else t in
  strip (replace (lit "diff") [] (replace (lit "derivative") [] t)).

(** handle_derivative (lines 88-103) *)
Definition handle_derivative (text : str) : io str :=
  try_except
    (let t := derivative_operand text in
     f <- try_parse t ;;
     var <- first_symbol_or_x f ;;
     res <- call (Sympy.diff B f var) ;;
     ret (lit "d/d" ++ Sympy.show B var ++ lit " (" ++ Sympy.show B f
          ++ lit ") = " ++ Sympy.show B res))
    [(except_Exception,
      fun e => ret (lit "Hosila xatosi: " ++ exn_msg e))].

Definition LIMIT_HINT : str :=
  lit "Limit formati xato. To'g'ri format: limit(sin(x)/x, x, 0)".

(** handle_limit (lines 105-113) *)
Definition handle_limit (text : str) : io str :=
  try_except
    (obj <- try_parse text ;;
     res <- call (Sympy.doit B obj) ;;
     ret (lit "Limit natijasi: " ++ Sympy.show B res))
    [(except_all, fun _ => ret LIMIT_HINT)].

(** The answer of handle_plot when matplotlib cannot be imported. *)
Definition MATPLOTLIB_HINT : str :=
  lit "XATO: Grafik chizish uchun 'matplotlib' kutubxonasini o'rnating (Pip orqali).".

(** handle_plot (lines 115-127) *)
Definition handle_plot (text : str) : io str :=
  try_except
    (let expr_str := strip (slice_from 4 text) in
     sym <- try_parse expr_str ;;
     print (lit "Grafik chizilmoqda: " ++ Sympy.show B sym ++ lit " ...") ;;
     call (Sympy.plot B sym) ;;
     ret (lit "Grafik yakunlandi."))
    [(except_ImportError,
      fun _ => ret (lit "XATO: Grafik chizish uchun 'matplotlib' kutubxonasini o'rnating (Pip orqali)."));
     (except_Exception,
      fun e => ret (lit "Grafik xatosi: " ++ exn_msg e))].

(** handle_other (lines 129-154) *)
Definition handle_other (expr_text : str) : io str :=
  try_except
    (let s_norm := normalize expr_text in
     let low := lower s_norm in
     if startswith_any low [lit "factor"; lit "expand"; lit "simplify"] then
       res <- try_parse s_norm ;;
       ret (lit "Natija: " ++ Sympy.show B res)
     else
       f <- try_parse s_norm ;;
       let out := lit "Ifoda: " ++ Sympy.show B f ++ NL in
       out <- try_except
                (numeric <- call (Sympy.evalf B f) ;;
                 ret (out ++ lit "Taqribiy qiymat: "
                      ++ Sympy.show B numeric ++ NL))
                [(except_all, fun _ => ret out)] ;;
       simplified <- call (Sympy.simplify B f) ;;
       ret (out ++ lit "Soddalashtirilgan: " ++ Sympy.show B simplified))
    [(except_Exception, fun e => ret (lit "Xato: " ++ exn_msg e))].

Definition USAGE : str :=
  NL ++ lit "--- QO'LLANMA ---" ++ NL
  ++ lit "1. Hisoblash: 2+2, 5^2, sqrt(16)" ++ NL
  ++ lit "2. Tenglama: x^2 - 9 = 0" ++ NL
  ++ lit "3. Integral: integral x^2" ++ NL
  ++ lit "4. Hosila: diff(x^3) yoki d/dx sin(x)" ++ NL
  ++ lit "5. Limit: limit(sin(x)/x, x, 0)" ++ NL
  ++ lit "6. Grafik: plot x^2" ++ NL
  ++ lit "7. Chiqish: exit" ++ NL
  ++ lit "-----------------" ++ NL.

(** show_help (lines 156-167) *)
Definition show_help : io unit := print USAGE.

(** How an iteration of the loop ends: [Next] when control reaches the next
    iteration ([continue] or the end of the body), [Stop] at [break]. *)
Inductive signal := Next | Stop.

(** The classification chain of main (lines 179-210), on the stripped,
    non-empty line. *)
Definition dispatch (text : str) : io signal :=
  let low := lower text in
  if existsb (eqb_str low) [lit "exit"; lit "quit"] then
    print (lit "Dastur tugatildi.") ;; ret Stop
  else if eqb_str low (lit "help") then
    show_help ;; ret Next
  else if startswith low (lit "plot ") then
    r <- handle_plot text ;; print r ;; ret Next
  else if contains text (lit "=")
          && negb (startswith_any low
                     [lit "limit"; lit "int"; lit "diff"; lit "plot"]) then
    r <- handle_equation text ;; print r ;; ret Next
  else if contains low (lit "integral") || contains low (lit "integrate")
          || contains text [INTEGRAL_SIGN] then
    r <- handle_integral text ;; print r ;; ret Next
  else if startswith_any low [lit "d/d"; lit "diff"; lit "derivative"] then
    r <- handle_derivative text ;; print r ;; ret Next
  else if contains low (lit "limit") then
    r <- handle_limit text ;; print r ;; ret Next
  else
    r <- handle_other text ;; print r ;; ret Next.

Definition PROMPT : str := NL ++ lit ">>> ".

(** [input(prompt)]: the prompt is written, then the line read is returned,
    or the exception of the read ([EOFError], [KeyboardInterrupt]) raised. *)
Definition input (prompt : str) (line : result str) : io str :=
  print prompt ;; call line.

(** The body of the [try] block of main (lines 175-210). *)
Definition iteration (line : result str) : io signal :=
  raw <- input PROMPT line ;;
  let text := strip raw in
  match text with
  | [] => ret Next
  | _ :: _ => dispatch text
  end.

(** One turn of the [while True] loop of main (lines 174-216). *)
Definition loop_body (line : result str) : io signal :=
  try_except (iteration line)
    [(except_KeyboardInterrupt,
      fun _ => print (NL ++ lit "Dastur to'xtatildi.") ;; ret Stop);
     (except_Exception,
      fun e => print (lit "Dastur xatosi: " ++ exn_msg e) ;; ret Next)].

(** Where main stands once the lines typed so far are consumed: back at the
    prompt, past a [break], or aborted by an exception nothing caught. *)
Inductive status := Prompting | Terminated | Aborted (e : exn).

Fixpoint repl (lines : list (result str)) : list str * status :=
  match lines with
  | [] => ([], Prompting)
  | line :: rest =>
      match loop_body line with
      | (out, Ok Next) => let (out', st) := repl rest in (out ++ out', st)
      | (out, Ok Stop) => (out, Terminated)
      | (out, Raise e) => (out, Aborted e)
      end
  end.

(** main (lines 169-216), run on the lines typed at the prompt. *)
Definition main (lines : list (result str)) : list str * status :=
  let (out, st) := repl lines in
  (lit "=== Pydroid Matematik Yechuvchi ==="
   :: lit "Buyruqni kiritib Enter bosing (Yordam uchun: help)"
   :: out, st).





(** The handlers, as the specification states it: whatever the backend
    raises, a handler returns a text. *)
Definition handlers_never_propagate : Prop :=
  forall text,
    (exists s, returned (handle_equation text) = Ok s)
    /\ (exists s, returned (handle_integral text) = Ok s)
    /\ (exists s, returned (handle_derivative text) = Ok s)
    /\ (exists s, returned (handle_limit text) = Ok s)
    /\ (exists s, returned (handle_plot text) = Ok s)
    /\ (exists s, returned (handle_other text) = Ok s).

(** The generic report, as the specification states it: the line of the
    approximate value is left out for an expression with free variables,
    and the report ends with the simplified form. *)
Definition value_line_needs_no_free_symbols : Prop :=
  forall expr_text f fs,
    startswith_any (lower (normalize expr_text))
      [lit "factor"; lit "expand"; lit "simplify"] = false ->
    Sympy.parse_expr B (normalize expr_text) = Ok f ->
    Sympy.free_symbols B f = Ok fs ->
    fs <> [] ->
    exists simplified,
      handle_other expr_text
      = ret (lit "Ifoda: " ++ Sympy.show B f ++ NL
             ++ lit "Soddalashtirilgan: " ++ Sympy.show B simplified).

(** The answer to an integral, as the specification states it: whenever the
    operand parses, the answer has the format of an integral. *)
Definition parsed_integral_is_formatted : Prop :=
  forall text f,
    Sympy.parse_expr B (normalize (integral_operand text)) = Ok f ->
    exists var res,
      handle_integral text
      = ret ([INTEGRAL_SIGN] ++ lit " (" ++ Sympy.show B f ++ lit ") d"
             ++ Sympy.show B var ++ lit " = " ++ Sympy.show B res
             ++ lit " + C").

(** The two lines every report of a constant equation starts with. *)
Definition verdict_header (left_ right_ : str) : str :=
  lit "Tenglama: " ++ left_ ++ lit " = " ++ right_ ++ NL ++ lit "Natija: ".


End Program.

(** ** The routing contract, as the specification words it

    An ordered list of (predicate, route) pairs over the line and its
    lowercase form; the first pair whose predicate holds decides, and a line
    that matches none is a generic expression. *)

Inductive route :=
| RExit | RHelp | RPlot | REquation | RIntegral | RDerivative | RLimit
| RGeneric.

Definition routing_table : list ((str -> str -> bool) * route) :=
  [ (fun _ low => eqb_str low (lit "exit") || eqb_str low (lit "quit"),
     RExit);
    (fun _ low => eqb_str low (lit "help"), RHelp);
    (fun _ low => startswith low (lit "plot "), RPlot);
    (fun text low =>
       contains text (lit "=")
       && negb (startswith low (lit "limit"))
       && negb (startswith low (lit "int"))
       && negb (startswith low (lit "diff"))
       && negb (startswith low (lit "plot")),
     REquation);
    (fun text low =>
       contains low (lit "integral") || contains low (lit "integrate")
       || contains text [INTEGRAL_SIGN],
     RIntegral);
    (fun _ low =>
       startswith low (lit "d/d") || startswith low (lit "diff")
       || startswith low (lit "derivative"),
     RDerivative);
    (fun _ low => contains low (lit "limit"), RLimit) ].

Fixpoint first_match (table : list ((str -> str -> bool) * route))
    (text low : str) : route :=
  match table with
  | [] => RGeneric
  | (p, r) :: table' => if p text low then r else first_match table' text low
  end.

Definition select_route (text low : str) : route :=
  first_match routing_table text low.

(** The test of main for the integral route (line 197). *)
Definition integral_words (text low : str) : bool :=
  contains low (lit "integral") || contains low (lit "integrate")
  || contains text [INTEGRAL_SIGN].

(** The route of an ASCII line, as typed. *)
Definition route_of (text : string) : route :=
  select_route (strip (lit text)) (ascii_lower (strip (lit text))).

Section Routes.

Variable lower : str -> str.
Variable B : Sympy.Backend.

(** What each route does with the line. *)
Definition perform (r : route) (text : str) : io signal :=
  match r with
  | RExit => print (lit "Dastur tugatildi.") ;; ret Stop
  | RHelp => print USAGE ;; ret Next
  | RPlot => s <- handle_plot B text ;; print s ;; ret Next
  | REquation => s <- handle_equation B text ;; print s ;; ret Next
  | RIntegral => s <- handle_integral lower B text ;; print s ;; ret Next
  | RDerivative => s <- handle_derivative lower B text ;; print s ;; ret Next
  | RLimit => s <- handle_limit B text ;; print s ;; ret Next
  | RGeneric => s <- handle_other lower B text ;; print s ;; ret Next
  end.

End Routes.

(** ** A scripted backend

    A stand-in for sympy that answers a fixed table of requests with the
    printed forms of the answers, and anything else with an error.  An
    expression is identified with its printed form. *)

Module Scripted.

Fixpoint assoc {A} (k : str) (t : list (str * A)) : option A :=
  match t with
  | [] => None
  | (k', v) :: t' => if eqb_str k k' then Some v else assoc k t'
  end.

Definition error (msg : str) : exn := MkExn OtherException msg.

Definition parse_table : list (str * str) :=
  [ (lit "2+3*4", lit "14");
    (lit "2", lit "2");
    (lit "3", lit "3");
    (lit "0", lit "0");
    (lit "1+1", lit "2");
    (lit "1,2", lit "(1, 2)");
    (lit "x**2", lit "x**2");
    (lit "x**3", lit "x**3");
    (lit "(x**3)", lit "x**3");
    (lit "x**2-4", lit "x**2 - 4");
    (lit "sin(x)", lit "sin(x)");
    (lit "limit(sin(x)/x, x, 0)", lit "1");
    (lit "asin(1/3)+acos(1/3)", lit "acos(1/3) + asin(1/3)");
    (lit "pi/2", lit "pi/2") ].

Definition parse_expr (s : str) : result str :=
  match assoc s parse_table with
  | Some e => Ok e
  | None => Raise (error (lit "invalid syntax"))
  end.

Definition symbols_table : list (str * list str) :=
  [ (lit "x**2", [lit "x"]);
    (lit "x**3", [lit "x"]);
    (lit "x**2 - 4", [lit "x"]);
    (lit "sin(x)", [lit "x"]) ].

Definition free_symbols (e : str) : result (list str) :=
  if eqb_str e (lit "(1, 2)")
  then Raise (error (lit "'tuple' object has no attribute 'free_symbols'"))
  else match assoc e symbols_table with
       | Some l => Ok l
       | None => Ok []
       end.

Definition member (v : str) (l : list str) : bool := existsb (eqb_str v) l.

Definition union (a b : list str) : list str :=
  a ++ filter (fun v => negb (member v a)) b.

Definition Eq (L R : str) : result str :=
  Ok (lit "Eq(" ++ L ++ lit ", " ++ R ++ lit ")").

Definition is_digit (c : char) : bool := ((48 <=? c) && (c <=? 57))%N.

Definition is_integer_literal (e : str) : bool :=
  match e with
  | [] => false
  | _ :: _ => forallb is_digit e
  end.

(** The equality test decides identical expressions and integer literals,
    and gives up on everything else. *)
Definition equals (L R : str) : result (option bool) :=
  if eqb_str L R then Ok (Some true)
  else if is_integer_literal L && is_integer_literal R then Ok (Some false)
  else Ok None.

(** The identities between constants the script knows: each constant is
    named by the closed form of the number it denotes. *)
Definition closed_forms : list (str * str) :=
  [ (lit "acos(1/3) + asin(1/3)", lit "pi/2") ].

Definition value (e : str) : str :=
  match assoc e closed_forms with
  | Some v => v
  | None => e
  end.

Definition math_eq (a b : str) : Prop := value a = value b.

Definition solveset (eq var : str) : result str :=
  if eqb_str eq (lit "Eq(x**2 - 4, 0)") && eqb_str var (lit "x")
  then Ok (lit "{-2, 2}")
  else Raise (error (lit "solveset: not implemented")).

Definition integrate (f var : str) : result str :=
  if eqb_str f (lit "x**2") && eqb_str var (lit "x") then Ok (lit "x**3/3")
  else if eqb_str f (lit "14") && eqb_str var (lit "x") then Ok (lit "14*x")
  else Ok (lit "Integral(" ++ f ++ lit ", " ++ var ++ lit ")").

Definition diff (f var : str) : result str :=
  if eqb_str f (lit "x**3") && eqb_str var (lit "x") then Ok (lit "3*x**2")
  else Ok (lit "Derivative(" ++ f ++ lit ", " ++ var ++ lit ")").

Definition doit (e : str) : result str := Ok e.

Definition evalf (e : str) : result str :=
  if eqb_str e (lit "(1, 2)")
  then Raise (error (lit "'tuple' object has no attribute 'evalf'"))
  else if eqb_str e (lit "14") then Ok (lit "14.0000000000000")
  else Ok e.

Definition simplify (e : str) : result str := Ok e.

Definition plot (e : str) : result unit := Ok tt.

End Scripted.

Definition scripted : Sympy.Backend := {|
  Sympy.expr := str;
  Sympy.parse_expr := Scripted.parse_expr;
  Sympy.show := fun e => e;
  Sympy.x := lit "x";
  Sympy.free_symbols := Scripted.free_symbols;
  Sympy.union := Scripted.union;
  Sympy.Eq := Scripted.Eq;
  Sympy.equals := Scripted.equals;
  Sympy.solveset := Scripted.solveset;
  Sympy.integrate := Scripted.integrate;
  Sympy.diff := Scripted.diff;
  Sympy.doit := Scripted.doit;
  Sympy.evalf := Scripted.evalf;
  Sympy.simplify := Scripted.simplify;
  Sympy.plot := Scripted.plot;
  Sympy.math_eq := Scripted.math_eq
|}.

(** The scripted backend with Ctrl-C pressed during every parse. *)
Definition scripted_interrupted : Sympy.Backend := {|
  Sympy.expr := str;
  Sympy.parse_expr := fun _ => Raise interrupt;
  Sympy.show := fun e => e;
  Sympy.x := lit "x";
  Sympy.free_symbols := Scripted.free_symbols;
  Sympy.union := Scripted.union;
  Sympy.Eq := Scripted.Eq;
  Sympy.equals := Scripted.equals;
  Sympy.solveset := Scripted.solveset;
  Sympy.integrate := Scripted.integrate;
  Sympy.diff := Scripted.diff;
  Sympy.doit := Scripted.doit;
  Sympy.evalf := Scripted.evalf;
  Sympy.simplify := Scripted.simplify;
  Sympy.plot := Scripted.plot;
  Sympy.math_eq := Scripted.math_eq
|}.

(** The scripted backend taught one factorisation. *)
Definition scripted_algebra : Sympy.Backend := {|
  Sympy.expr := str;
  Sympy.parse_expr := fun s =>
    if eqb_str s (lit "factor(x**2-1)") then Ok (lit "(x - 1)*(x + 1)")
    else Scripted.parse_expr s;
  Sympy.show := fun e => e;
  Sympy.x := lit "x";
  Sympy.free_symbols := Scripted.free_symbols;
  Sympy.union := Scripted.union;
  Sympy.Eq := Scripted.Eq;
  Sympy.equals := Scripted.equals;
  Sympy.solveset := Scripted.solveset;
  Sympy.integrate := Scripted.integrate;
  Sympy.diff := Scripted.diff;
  Sympy.doit := Scripted.doit;
  Sympy.evalf := Scripted.evalf;
  Sympy.simplify := Scripted.simplify;
  Sympy.plot := Scripted.plot;
  Sympy.math_eq := Scripted.math_eq
|}.

(** The scripted backend on a machine without matplotlib. *)
Definition scripted_no_matplotlib : Sympy.Backend := {|
  Sympy.expr := str;
  Sympy.parse_expr := Scripted.parse_expr;
  Sympy.show := fun e => e;
  Sympy.x := lit "x";
  Sympy.free_symbols := Scripted.free_symbols;
  Sympy.union := Scripted.union;
  Sympy.Eq := Scripted.Eq;
  Sympy.equals := Scripted.equals;
  Sympy.solveset := Scripted.solveset;
  Sympy.integrate := Scripted.integrate;
  Sympy.diff := Scripted.diff;
  Sympy.doit := Scripted.doit;
  Sympy.evalf := Scripted.evalf;
  Sympy.simplify := Scripted.simplify;
  Sympy.plot := fun _ =>
    Raise (MkExn ImportError (lit "No module named 'matplotlib'"));
  Sympy.math_eq := Scripted.math_eq
|}.

(** The line that makes the parser, which evaluates what it is given, leave
    the interpreter. *)
Definition EXIT_CALL : str := lit "__import__('sys').exit()".

(** The scripted backend with that evaluation. *)
Definition scripted_eval : Sympy.Backend :=
  Sympy.with_parser scripted
    (fun s => if eqb_str s EXIT_CALL then Raise system_exit
              else Scripted.parse_expr s).

(** * Properties *)

(** ** Facts about the string operations *)

Module PyFacts.

Lemma eqb_str_spec (a b : str) : reflect (a = b) (eqb_str a b).
Proof.
  unfold eqb_str. destruct (list_eq_dec N.eq_dec a b); constructor; assumption.
Qed.



Lemma lstrip_idem (s : str) : lstrip (lstrip s) = lstrip s.
Proof.
  induction s as [|c s IH]; simpl; [reflexivity|].
  destruct (is_space c) eqn:Hc; [exact IH|].
  simpl. rewrite Hc. reflexivity.
Qed.

Lemma lstrip_suffix (s : str) : exists w, s = w ++ lstrip s.
Proof.
  induction s as [|c s [w Hw]]; simpl.
  - exists []. reflexivity.
  - destruct (is_space c).
    + exists (c :: w). simpl. congruence.
    + exists []. reflexivity.
Qed.

Lemma lstrip_head (s : str) c r : lstrip s = c :: r -> is_space c = false.
Proof.
  induction s as [|d s IH]; simpl; [discriminate|].
  destruct (is_space d) eqn:Hd; [exact IH|].
  intros H. injection H as -> _. exact Hd.
Qed.

Lemma lstrip_fixed c r : is_space c = false -> lstrip (c :: r) = c :: r.
Proof. intros H. simpl. rewrite H. reflexivity. Qed.

Lemma rstrip_prefix (s : str) : exists w, s = rstrip s ++ w.
Proof.
  unfold rstrip. destruct (lstrip_suffix (rev s)) as [w Hw].
  exists (rev w).
  rewrite <- rev_app_distr, <- Hw, rev_involutive. reflexivity.
Qed.

Lemma rstrip_idem (s : str) : rstrip (rstrip s) = rstrip s.
Proof.
  unfold rstrip. rewrite rev_involutive, lstrip_idem. reflexivity.
Qed.

Lemma lstrip_rstrip_lstrip (s : str) :
  lstrip (rstrip (lstrip s)) = rstrip (lstrip s).
Proof.
  destruct (rstrip_prefix (lstrip s)) as [w Hw].
  destruct (rstrip (lstrip s)) as [|c u] eqn:E; [reflexivity|].
  apply lstrip_fixed. simpl in Hw. exact (lstrip_head _ Hw).
Qed.

Lemma strip_idem (s : str) : strip (strip s) = strip s.
Proof.
  unfold strip. rewrite lstrip_rstrip_lstrip. apply rstrip_idem.
Qed.

Lemma strip_incl (s : str) d : In d (strip s) -> In d s.
Proof.
  unfold strip. intros H.
  destruct (rstrip_prefix (lstrip s)) as [w Hw].
  destruct (lstrip_suffix s) as [v Hv].
  rewrite Hv. apply in_or_app. right.
  rewrite Hw. apply in_or_app. left. exact H.
Qed.

Lemma strip_Forall (P : char -> Prop) (s : str) :
  Forall P s -> Forall P (strip s).
Proof.
  rewrite !Forall_forall. intros H d Hd. apply H, strip_incl, Hd.
Qed.

(** Replacing a one-character pattern rewrites each character on its own. *)
Lemma replace_single c new s :
  replace [c] new s =
  flat_map (fun d => if (d =? c)%N then new else [d]) s.
Proof.
  unfold replace.
  induction s as [|d s IH]; [reflexivity|].
  cbn [replace_from startswith flat_map length Nat.sub].
  destruct (d =? c)%N; cbn [andb].
  - destruct s; cbn [startswith]; rewrite IH; reflexivity.
  - rewrite IH. reflexivity.
Qed.

Lemma replace_single_id c new s :
  Forall (fun d => d <> c) s -> replace [c] new s = s.
Proof.
  rewrite replace_single.
  induction 1 as [|d s Hd _ IH]; [reflexivity|].
  cbn [flat_map]. apply N.eqb_neq in Hd. rewrite Hd, IH. reflexivity.
Qed.

Lemma replace_single_Forall (P : char -> Prop) c new s :
  Forall P s -> Forall P new -> Forall (fun d => d <> c) new ->
  Forall (fun d => P d /\ d <> c) (replace [c] new s).
Proof.
  intros Hs Hnew Hc. rewrite replace_single.
  induction Hs as [|d s Hd _ IH]; cbn [flat_map]; [constructor|].
  apply Forall_app. split; [|exact IH].
  destruct (d =? c)%N eqn:E.
  - rewrite Forall_forall in *. intros a Ha. split; auto.
  - constructor; [|constructor]. split; [exact Hd|].
    apply N.eqb_neq. exact E.
Qed.

Lemma replace_from_Forall (P : char -> Prop) old new s :
  Forall P s -> Forall P new ->
  forall skip, Forall P (replace_from old new skip s).
Proof.
  intros Hs Hnew.
  induction Hs as [|d s Hd _ IH]; intros skip; cbn [replace_from];
    [constructor|].
  destruct skip; [|apply IH].
  destruct (startswith (d :: s) old).
  - apply Forall_app. split; [exact Hnew | apply IH].
  - constructor; [exact Hd | apply IH].
Qed.

Lemma replace_Forall (P : char -> Prop) old new s :
  Forall P s -> Forall P new -> Forall P (replace old new s).
Proof.
  intros Hs Hnew. destruct old as [|a old]; cbn [replace].
  - apply Forall_app. split; [exact Hnew|].
    induction Hs as [|d s Hd _ IH]; cbn [flat_map]; [constructor|].
    constructor; [exact Hd|]. apply Forall_app. split; assumption.
  - apply replace_from_Forall; assumption.
Qed.

Lemma slice_to_minus_Forall (P : char -> Prop) n s :
  Forall P s -> Forall P (slice_to_minus n s).
Proof.
  unfold slice_to_minus. intros H.
  rewrite <- (firstn_skipn (length s - n) s) in H.
  apply Forall_app in H. exact (proj1 H).
Qed.

End PyFacts.

(** ** normalize *)

Section Normalize.

Import PyFacts.

Local Ltac literal_ok :=
  cbv; repeat (constructor; try (intuition discriminate)).

(** No character that normalize rewrites survives it. *)
Lemma normalize_clean (s : str) :
  Forall (fun d => ~ In d special_chars) (normalize s).
Proof.
  unfold normalize. apply strip_Forall.
  assert (H0 : Forall (fun _ : char => True) s)
    by (apply Forall_forall; trivial).
  pose proof (@replace_single_Forall _ 94%N (lit "**") s H0) as H1.
  specialize (H1 ltac:(literal_ok) ltac:(literal_ok)).
  pose proof (@replace_single_Forall _ MULTIPLICATION_SIGN (lit "*") _ H1)
    as H2.
  specialize (H2 ltac:(literal_ok) ltac:(literal_ok)).
  pose proof (@replace_single_Forall _ DIVISION_SIGN (lit "/") _ H2) as H3.
  specialize (H3 ltac:(literal_ok) ltac:(literal_ok)).
  pose proof (@replace_single_Forall _ 58%N (lit "/") _ H3) as H4.
  specialize (H4 ltac:(literal_ok) ltac:(literal_ok)).
  pose proof (@replace_single_Forall _ SQUARE_ROOT (lit "sqrt") _ H4) as H5.
  specialize (H5 ltac:(literal_ok) ltac:(literal_ok)).
  pose proof (@replace_single_Forall _ EM_DASH (lit "-") _ H5) as H6.
  specialize (H6 ltac:(literal_ok) ltac:(literal_ok)).
  pose proof (@replace_single_Forall _ EN_DASH (lit "-") _ H6) as H7.
  specialize (H7 ltac:(literal_ok) ltac:(literal_ok)).
  revert H7. apply Forall_impl. intros d Hd.
  cbn [special_chars lit app In N_of_ascii]. cbv in Hd |- *. intuition.
Qed.

(** On text free of those characters normalize only strips. *)
Lemma normalize_on_clean (s : str) :
  Forall (fun d => ~ In d special_chars) s -> normalize s = strip s.
Proof.
  intros H. unfold normalize.
  assert (Hc : forall c, In c special_chars -> Forall (fun d => d <> c) s).
  { intros c Hc. revert H. apply Forall_impl. intros d Hd ->. exact (Hd Hc). }
  change (lit "^") with [94%N]. change (lit ":") with [58%N].
  rewrite (@replace_single_id 94%N) by (apply Hc; cbv; tauto).
  rewrite (@replace_single_id MULTIPLICATION_SIGN) by (apply Hc; cbv; tauto).
  rewrite (@replace_single_id DIVISION_SIGN) by (apply Hc; cbv; tauto).
  rewrite (@replace_single_id 58%N) by (apply Hc; cbv; tauto).
  rewrite (@replace_single_id SQUARE_ROOT) by (apply Hc; cbv; tauto).
  rewrite (@replace_single_id EM_DASH) by (apply Hc; cbv; tauto).
  rewrite (@replace_single_id EN_DASH) by (apply Hc; cbv; tauto).
  reflexivity.
Qed.

(** normalize keeps every property of characters that the characters it
    writes have. *)
Lemma normalize_Forall (P : char -> Prop) (s : str) :
  Forall P (lit "*/sqrt-") -> Forall P s -> Forall P (normalize s).
Proof.
  intros Hlit Hs. unfold normalize.
  assert (Hsub : forall new, incl new (lit "*/sqrt-") -> Forall P new).
  { intros new Hincl. rewrite Forall_forall in *. auto. }
  apply strip_Forall.
  repeat (apply replace_Forall;
          [|apply Hsub; cbv; intros a Ha; tauto]).
  exact Hs.
Qed.

(** Normalised text is stripped text. *)
Lemma strip_normalize (s : str) : strip (normalize s) = normalize s.
Proof. unfold normalize. apply strip_idem. Qed.

(** C5. Normalisation is idempotent: for every string [s],
    [normalize (normalize s) = normalize s]. *)
Theorem normalize_idempotent (s : str) :
  normalize (normalize s) = normalize s.
Proof.
  (* the first pass leaves none of the characters the second would rewrite *)
  rewrite (normalize_on_clean (normalize_clean s)).
  (* and what it returns is already stripped *)
  apply strip_normalize.
Qed.

End Normalize.

(** ** The handlers *)

Section Handlers.

Import PyFacts.

Variable lower : str -> str.
Variable B : Sympy.Backend.

Lemma bind_ok {A C} (r : result A) (a : A) (k : A -> io C) :
  r = Ok a -> bind (call r) k = k a.
Proof. intros ->. unfold bind, call. destruct (k a). reflexivity. Qed.

Lemma bind_raise {A C} (r : result A) (e : exn) (k : A -> io C) :
  r = Raise e -> bind (call r) k = raise e.
Proof. intros ->. reflexivity. Qed.

Lemma bind_ret {A C} (a : A) (k : A -> io C) : bind (ret a) k = k a.
Proof. unfold bind, ret. destruct (k a). reflexivity. Qed.

Lemma bind_raise_l {A C} (e : exn) (k : A -> io C) :
  bind (raise e) k = raise e.
Proof. reflexivity. Qed.

Lemma try_except_ret {A} (a : A) clauses :
  try_except (ret a) clauses = ret a.
Proof. reflexivity. Qed.

(** C6, as the code has it. On the integral route the line is lowercased,
    'integral', 'integrate' and the integral sign are deleted from it, the
    rest is stripped and freed of a trailing 'dx'.  When that text parses to
    [f], and the listing of the free symbols of [f] and the integration
    return, the answer is [INT (f) d<var> = <res> + C] (INT the integral
    sign), where [var] is the first free symbol of [f], or [x] when [f] has
    none, and [res] the integral of [f] with respect to [var]; when either
    raises an instance of [Exception], the answer is "Integral xatosi: ..."
    with the message of the exception. *)
Theorem handle_integral_format (text : str) f :
  let t :=
    strip (replace [INTEGRAL_SIGN] []
             (replace (lit "integrate") []
                (replace (lit "integral") [] (lower text)))) in
  let operand :=
    if endswith t (lit "dx") then strip (slice_to_minus 2 t) else t in
  let caught e :=
    if is_Exception e then ret (lit "Integral xatosi: " ++ exn_msg e)
    else raise e in
  Sympy.parse_expr B (normalize operand) = Ok f ->
  handle_integral lower B text
  = match Sympy.free_symbols B f with
    | Raise e => caught e
    | Ok fs =>
        match Sympy.integrate B f (hd (Sympy.x B) fs) with
        | Raise e => caught e
        | Ok res =>
            ret ([INTEGRAL_SIGN] ++ lit " (" ++ Sympy.show B f ++ lit ") d"
                 ++ Sympy.show B (hd (Sympy.x B) fs) ++ lit " = "
                 ++ Sympy.show B res ++ lit " + C")
        end
    end.
Proof.
  cbv zeta. intros Hf.
  unfold handle_integral, integral_operand, try_parse, first_symbol_or_x.
  rewrite (bind_ok _ Hf).
  destruct (Sympy.free_symbols B f) as [fs|e] eqn:Hfs.
  - rewrite (bind_ok _ (eq_refl (Ok fs))).
    assert (Hvar : (match fs with
                    | v :: _ => ret v
                    | [] => ret (Sympy.x B)
                    end) = ret (hd (Sympy.x B) fs))
      by (destruct fs; reflexivity).
    rewrite Hvar, bind_ret.
    destruct (Sympy.integrate B f (hd (Sympy.x B) fs)) as [res|e] eqn:Hres.
    + rewrite (bind_ok _ (eq_refl (Ok res))). reflexivity.
    + rewrite (bind_raise _ (eq_refl (Raise e))).
      unfold try_except, raise, is_Exception. cbn. unfold catches.
      destruct (exn_class e); reflexivity.
  - rewrite (bind_raise _ (eq_refl (Raise e))). rewrite bind_raise_l.
    unfold try_except, raise, is_Exception. cbn. unfold catches.
    destruct (exn_class e); reflexivity.
Qed.

(** C4, as the code has it. On the generic route, when the normalised,
    lowercased text does not begin with 'factor', 'expand' or 'simplify' and
    parses to [f]: if [simplify] returns, the answer reports the parsed
    form, then the line of the approximate value exactly when [f.evalf()]
    returns (nothing in its place when it raises, and free variables play no
    part in that), and ends with the simplified form; if [simplify] raises
    an instance of [Exception], the answer is "Xato: ..." with the message of
    the exception. *)
Theorem handle_other_report (expr_text : str) f :
  startswith_any (lower (normalize expr_text))
    [lit "factor"; lit "expand"; lit "simplify"] = false ->
  Sympy.parse_expr B (normalize expr_text) = Ok f ->
  handle_other lower B expr_text
  = match Sympy.simplify B f with
    | Ok simplified =>
        ret (lit "Ifoda: " ++ Sympy.show B f ++ NL
             ++ match Sympy.evalf B f with
                | Ok numeric =>
                    lit "Taqribiy qiymat: " ++ Sympy.show B numeric ++ NL
                | Raise _ => []
                end
             ++ lit "Soddalashtirilgan: " ++ Sympy.show B simplified)
    | Raise e =>
        if is_Exception e then ret (lit "Xato: " ++ exn_msg e) else raise e
    end.
Proof.
  intros Hkw Hf.
  unfold handle_other, try_parse. rewrite Hkw.
  rewrite (normalize_on_clean (normalize_clean expr_text)), strip_normalize.
  rewrite (bind_ok _ Hf).
  assert (Hc : forall A (v : A) e,
             try_except (raise e) [(except_all, fun _ => ret v)] = ret v).
  { intros A v e. unfold try_except, raise. cbn. destruct (exn_class e);
      reflexivity. }
  assert (Hx : forall e,
             try_except (raise e)
               [(except_Exception,
                 fun e => ret (lit "Xato: " ++ exn_msg e))]
             = if is_Exception e then ret (lit "Xato: " ++ exn_msg e)
               else raise e).
  { intros e. unfold try_except, raise, is_Exception. cbn. unfold catches.
    destruct (exn_class e); reflexivity. }
  destruct (Sympy.simplify B f) as [simplified|es] eqn:Hs;
    destruct (Sympy.evalf B f) as [numeric|e] eqn:He.
  - rewrite (bind_ok _ (eq_refl (Ok numeric))), try_except_ret, bind_ret.
    rewrite (bind_ok _ (eq_refl (Ok simplified))), try_except_ret.
    f_equal. rewrite <- !app_assoc. reflexivity.
  - rewrite (bind_raise _ (eq_refl (Raise e))).
    rewrite Hc, bind_ret, (bind_ok _ (eq_refl (Ok simplified))), try_except_ret.
    f_equal. rewrite <- !app_assoc. reflexivity.
  - rewrite (bind_ok _ (eq_refl (Ok numeric))), try_except_ret, bind_ret.
    rewrite (bind_raise _ (eq_refl (Raise es))). apply Hx.
  - rewrite (bind_raise _ (eq_refl (Raise e))).
    rewrite Hc, bind_ret, (bind_raise _ (eq_refl (Raise es))). apply Hx.
Qed.

(** C7. On the limit route the answer is the result of the limit when both
    parsing and evaluation return; whenever either raises, whatever the
    exception, it is the one fixed usage hint. *)
Theorem handle_limit_hint (text : str) :
  handle_limit B text
  = match Sympy.parse_expr B (normalize text) with
    | Raise _ => ret LIMIT_HINT
    | Ok obj =>
        match Sympy.doit B obj with
        | Raise _ => ret LIMIT_HINT
        | Ok res => ret (lit "Limit natijasi: " ++ Sympy.show B res)
        end
    end.
Proof.
  unfold handle_limit, try_parse.
  destruct (Sympy.parse_expr B (normalize text)) as [obj|e].
  - rewrite (bind_ok _ (eq_refl (Ok obj))).
    destruct (Sympy.doit B obj) as [res|e].
    + reflexivity.
    + cbn. destruct (exn_class e); reflexivity.
  - cbn. destruct (exn_class e); reflexivity.
Qed.

(** *** Constant equations *)

(** The report on an equation without variables, for any answer [v] of the
    equality test. *)
Lemma handle_equation_constant text left_ right_ L R q fsL fsR v :
  split1 (lit "=") text = [left_; right_] ->
  Sympy.parse_expr B (normalize left_) = Ok L ->
  Sympy.parse_expr B (normalize right_) = Ok R ->
  Sympy.Eq B L R = Ok q ->
  Sympy.free_symbols B L = Ok fsL ->
  Sympy.free_symbols B R = Ok fsR ->
  Sympy.union B fsL fsR = [] ->
  Sympy.equals B L R = Ok v ->
  handle_equation B text
  = ret (verdict_header left_ right_
         ++ (if truthy v then lit "To'g'ri" else lit "Noto'g'ri")).
Proof.
  intros Hsplit HL HR Hq HfL HfR Hu Hv.
  unfold handle_equation, try_parse. rewrite Hsplit.
  cbn [unpack2]. rewrite bind_ret.
  rewrite (bind_ok _ HL), (bind_ok _ HR), (bind_ok _ Hq).
  rewrite (bind_ok _ HfL), (bind_ok _ HfR). rewrite Hu.
  rewrite (bind_ok _ Hv), try_except_ret.
  unfold verdict_header. rewrite <- !app_assoc. reflexivity.
Qed.

Lemma verdicts_differ (h : str) :
  ret (h ++ lit "To'g'ri") <> ret (h ++ lit "Noto'g'ri").
Proof.
  intros H. injection H as H. apply app_inv_head in H. discriminate H.
Qed.

(** C10. In the no-variable case an inconclusive equality test ([None]) is
    reported as "Noto'g'ri", and "To'g'ri" is reported only for a definite
    [True]. *)
Theorem inconclusive_equals_reported_false
    text left_ right_ L R q fsL fsR v :
  split1 (lit "=") text = [left_; right_] ->
  Sympy.parse_expr B (normalize left_) = Ok L ->
  Sympy.parse_expr B (normalize right_) = Ok R ->
  Sympy.Eq B L R = Ok q ->
  Sympy.free_symbols B L = Ok fsL ->
  Sympy.free_symbols B R = Ok fsR ->
  Sympy.union B fsL fsR = [] ->
  Sympy.equals B L R = Ok v ->
  (v = None ->
   handle_equation B text
   = ret (verdict_header left_ right_ ++ lit "Noto'g'ri"))
  /\ (handle_equation B text
      = ret (verdict_header left_ right_ ++ lit "To'g'ri")
      <-> v = Some true).
Proof.
  intros Hsplit HL HR Hq HfL HfR Hu Hv.
  rewrite (handle_equation_constant _ Hsplit HL HR Hq HfL HfR Hu Hv).
  split.
  - intros ->. reflexivity.
  - destruct v as [[|]|]; cbn [truthy]; split; intros H;
      try reflexivity; try discriminate H;
      exfalso; exact (@verdicts_differ _ (eq_sym H)).
Qed.


(** *** Lowercasing before parsing *)

Lemma integral_operand_Forall (P : char -> Prop) text :
  Forall P (lower text) -> Forall P (integral_operand lower text).
Proof.
  intros H. unfold integral_operand.
  assert (Ht : Forall P
            (strip (replace [INTEGRAL_SIGN] []
                      (replace (lit "integrate") []
                         (replace (lit "integral") [] (lower text)))))).
  { apply strip_Forall.
    repeat (apply replace_Forall; [|constructor]). exact H. }
  destruct (endswith _ _); [|exact Ht].
  apply strip_Forall, slice_to_minus_Forall, Ht.
Qed.

Lemma derivative_operand_keyword_form text :
  startswith (lower text) (lit "d/d") = false ->
  derivative_operand lower text
  = strip (replace (lit "diff") []
             (replace (lit "derivative") [] (lower text))).
Proof. intros H. unfold derivative_operand. rewrite H. reflexivity. Qed.

(** C9. The integral handler parses the lowercased line: the text it hands
    to the parser is the lowercase form of the line with 'integral',
    'integrate' and the integral sign deleted, stripped, freed of a trailing
    'dx' and normalised.  The answer depends on the parser through its
    verdict on that one text only, the failure of the parser on it is the
    failure the handler reports, every character of it has whatever property
    lowercased text and the characters written by normalize have (not being
    an uppercase letter, say), and two lines with the same lowercase form
    get the same answer.  The same holds of the derivative handler when the
    lowercased line does not begin with 'd/d', with 'derivative' and 'diff'
    the deleted words. *)
Theorem handlers_parse_lowercased (P : char -> Prop) (text : str) :
  let low := lower text in
  let t :=
    strip (replace [INTEGRAL_SIGN] []
             (replace (lit "integrate") []
                (replace (lit "integral") [] low))) in
  let operand :=
    if endswith t (lit "dx") then strip (slice_to_minus 2 t) else t in
  let d_operand :=
    strip (replace (lit "diff") [] (replace (lit "derivative") [] low)) in
  (forall s, Forall P (lower s)) ->
  Forall P (lit "*/sqrt-") ->
  ((forall p,
      p (normalize operand) = Sympy.parse_expr B (normalize operand) ->
      handle_integral lower (Sympy.with_parser B p) text
      = handle_integral lower B text)
   /\ (forall e,
         Sympy.parse_expr B (normalize operand) = Raise e ->
         is_Exception e = true ->
         handle_integral lower B text
         = ret (lit "Integral xatosi: " ++ exn_msg e))
   /\ Forall P (normalize operand)
   /\ (forall text', lower text' = low ->
         handle_integral lower B text' = handle_integral lower B text))
  /\ (startswith low (lit "d/d") = false ->
      (forall p,
         p (normalize d_operand) = Sympy.parse_expr B (normalize d_operand) ->
         handle_derivative lower (Sympy.with_parser B p) text
         = handle_derivative lower B text)
      /\ (forall e,
            Sympy.parse_expr B (normalize d_operand) = Raise e ->
            is_Exception e = true ->
            handle_derivative lower B text
            = ret (lit "Hosila xatosi: " ++ exn_msg e))
      /\ Forall P (normalize d_operand)
      /\ (forall text', lower text' = low ->
            handle_derivative lower B text' = handle_derivative lower B text)).
Proof.
  cbv zeta. intros Hlow Hlit.
  assert (Hx : forall h e, is_Exception e = true ->
             try_except (raise e) [(except_Exception, fun e => ret (h e))]
             = ret (h e) :> io str).
  { intros h e. unfold try_except, raise, is_Exception. cbn. unfold catches.
    destruct (exn_class e); intros H; try discriminate H; reflexivity. }
  split; [split; [|split; [|split]]|].
  - intros p Hp. unfold handle_integral, integral_operand, try_parse.
    cbn [Sympy.parse_expr Sympy.with_parser]. rewrite Hp. reflexivity.
  - intros e He Hc. unfold handle_integral, integral_operand, try_parse.
    rewrite (bind_raise _ He). apply Hx, Hc.
  - apply normalize_Forall; [exact Hlit|].
    apply (@integral_operand_Forall P text), Hlow.
  - intros text' E. unfold handle_integral, integral_operand.
    rewrite E. reflexivity.
  - intros Hkw. split; [|split; [|split]].
    + intros p Hp. unfold handle_derivative, try_parse.
      rewrite (derivative_operand_keyword_form _ Hkw).
      cbn [Sympy.parse_expr Sympy.with_parser]. rewrite Hp. reflexivity.
    + intros e He Hc. unfold handle_derivative, try_parse.
      rewrite (derivative_operand_keyword_form _ Hkw).
      rewrite (bind_raise _ He). apply Hx, Hc.
    + apply normalize_Forall; [exact Hlit|].
      apply strip_Forall.
      repeat (apply replace_Forall; [|constructor]). apply Hlow.
    + intros text' E. unfold handle_derivative.
      rewrite (derivative_operand_keyword_form _ Hkw).
      rewrite derivative_operand_keyword_form by (rewrite E; exact Hkw).
      rewrite E. reflexivity.
Qed.

(** *** No handler lets an error through *)

Lemma tame_ret {A} (a : A) : tame (ret a).
Proof. intros e H. discriminate H. Qed.

Lemma tame_print (s : str) : tame (print s).
Proof. intros e H. discriminate H. Qed.

Lemma tame_call {A} (r : result A) :
  (forall e, r = Raise e -> is_Exception e = true) -> tame (call r).
Proof. intros H e He. apply H. exact He. Qed.

Lemma tame_bind {A C} (m : io A) (k : A -> io C) :
  tame m -> (forall a, tame (k a)) -> tame (bind m k).
Proof.
  intros Hm Hk e. destruct m as [out [a|e0]]; unfold bind, returned.
  - specialize (Hk a e). destruct (k a) as [out' r]. exact Hk.
  - cbn. intros H. injection H as <-. apply (Hm e0). reflexivity.
Qed.

Lemma tame_unpack2 (parts : list str) : tame (unpack2 parts).
Proof.
  intros e. destruct parts as [|a [|b [|c parts]]]; cbn;
    intros H; try discriminate H; injection H as <-; reflexivity.
Qed.

(** A [try] whose last resort is [except:] returns. *)
Lemma try_except_all_returns {A} (m : io A) (v : A) :
  exists a, returned (try_except m [(except_all, fun _ => ret v)]) = Ok a.
Proof.
  destruct m as [out [a|e]]; cbn.
  - exists a. reflexivity.
  - destruct (exn_class e); cbn; exists v; reflexivity.
Qed.

(** A [try] around a tame body with [except Exception as e: return ...]
    returns. *)
Lemma try_except_Exception_returns {A} (m : io A) (h : exn -> A) :
  tame m ->
  exists a,
    returned (try_except m [(except_Exception, fun e => ret (h e))]) = Ok a.
Proof.
  intros Hm. destruct m as [out [a|e]]; cbn.
  - exists a. reflexivity.
  - specialize (Hm e eq_refl). unfold is_Exception in Hm.
    destruct (exn_class e); try discriminate Hm; cbn; eexists; reflexivity.
Qed.

Lemma try_except_Import_Exception_returns {A} (m : io A) (v : A)
    (h : exn -> A) :
  tame m ->
  exists a,
    returned (try_except m [(except_ImportError, fun _ => ret v);
                            (except_Exception, fun e => ret (h e))]) = Ok a.
Proof.
  intros Hm. destruct m as [out [a|e]]; cbn.
  - exists a. reflexivity.
  - specialize (Hm e eq_refl). unfold is_Exception in Hm.
    destruct (exn_class e); try discriminate Hm; cbn; eexists; reflexivity.
Qed.

(** Whatever the backend raises, what leaves a handler is never an instance
    of [Exception]. *)
Lemma try_except_Exception_filters {A} (m : io A) (h : exn -> A) e :
  returned (try_except m [(except_Exception, fun e => ret (h e))]) = Raise e ->
  is_Exception e = false.
Proof.
  destruct m as [out [a|e0]]; cbn; [discriminate|].
  unfold is_Exception.
  destruct (exn_class e0) eqn:Hc; cbn; intros H; try discriminate H;
    injection H as <-; rewrite Hc; reflexivity.
Qed.

Lemma try_except_Import_Exception_filters {A} (m : io A) (v : A)
    (h : exn -> A) e :
  returned (try_except m [(except_ImportError, fun _ => ret v);
                          (except_Exception, fun e => ret (h e))]) = Raise e ->
  is_Exception e = false.
Proof.
  destruct m as [out [a|e0]]; cbn; [discriminate|].
  unfold is_Exception.
  destruct (exn_class e0) eqn:Hc; cbn; intros H; try discriminate H;
    injection H as <-; rewrite Hc; reflexivity.
Qed.

Lemma handlers_stop_every_Exception (text : str) e :
  (returned (handle_equation B text) = Raise e -> is_Exception e = false)
  /\ (returned (handle_integral lower B text) = Raise e ->
      is_Exception e = false)
  /\ (returned (handle_derivative lower B text) = Raise e ->
      is_Exception e = false)
  /\ returned (handle_limit B text) <> Raise e
  /\ (returned (handle_plot B text) = Raise e -> is_Exception e = false)
  /\ (returned (handle_other lower B text) = Raise e ->
      is_Exception e = false).
Proof.
  repeat split; try apply try_except_Exception_filters;
    try apply try_except_Import_Exception_filters.
  intros H. unfold handle_limit in H.
  match type of H with
  | returned (try_except ?m _) = _ =>
      destruct (try_except_all_returns m LIMIT_HINT) as [a Ha]
  end.
  pose proof (eq_trans (eq_sym H) Ha) as E. discriminate E.
Qed.

Section Tame.

Hypothesis HB : Sympy.Ordinary B.

Lemma tame_try_parse (s : str) : tame (try_parse B s).
Proof. apply tame_call, (Sympy.parse_expr_exc HB). Qed.

Lemma tame_first_symbol_or_x f : tame (first_symbol_or_x B f).
Proof.
  apply tame_bind.
  - apply tame_call, (Sympy.free_symbols_exc HB).
  - intros [|v fs]; apply tame_ret.
Qed.

(** With a backend whose errors are instances of [Exception] each handler
    returns. *)
Lemma handlers_return_when_ordinary (text : str) :
  (exists s, returned (handle_equation B text) = Ok s)
  /\ (exists s, returned (handle_integral lower B text) = Ok s)
  /\ (exists s, returned (handle_derivative lower B text) = Ok s)
  /\ (exists s, returned (handle_limit B text) = Ok s)
  /\ (exists s, returned (handle_plot B text) = Ok s)
  /\ (exists s, returned (handle_other lower B text) = Ok s).
Proof.
  repeat split.
  - apply try_except_Exception_returns.
    apply tame_bind; [apply tame_unpack2|]. intros [left_ right_].
    apply tame_bind; [apply tame_try_parse|]. intros L.
    apply tame_bind; [apply tame_try_parse|]. intros R.
    apply tame_bind; [apply tame_call, (Sympy.Eq_exc HB)|]. intros q.
    apply tame_bind; [apply tame_call, (Sympy.free_symbols_exc HB)|].
    intros fsL.
    apply tame_bind; [apply tame_call, (Sympy.free_symbols_exc HB)|].
    intros fsR.
    destruct (Sympy.union B fsL fsR) as [|var vars_].
    + apply tame_bind; [apply tame_call, (Sympy.equals_exc HB)|].
      intros v. apply tame_ret.
    + apply tame_bind; [apply tame_call, (Sympy.solveset_exc HB)|].
      intros sol. apply tame_ret.
  - apply try_except_Exception_returns.
    apply tame_bind; [apply tame_try_parse|]. intros f.
    apply tame_bind; [apply tame_first_symbol_or_x|]. intros var.
    apply tame_bind; [apply tame_call, (Sympy.integrate_exc HB)|].
    intros res. apply tame_ret.
  - apply try_except_Exception_returns.
    apply tame_bind; [apply tame_try_parse|]. intros f.
    apply tame_bind; [apply tame_first_symbol_or_x|]. intros var.
    apply tame_bind; [apply tame_call, (Sympy.diff_exc HB)|].
    intros res. apply tame_ret.
  - apply try_except_all_returns.
  - apply try_except_Import_Exception_returns.
    apply tame_bind; [apply tame_try_parse|]. intros sym.
    apply tame_bind; [apply tame_print|]. intros _.
    apply tame_bind; [apply tame_call, (Sympy.plot_exc HB)|].
    intros _. apply tame_ret.
  - apply try_except_Exception_returns.
    cbv zeta.
    destruct (startswith_any _ _).
    + apply tame_bind; [apply tame_try_parse|]. intros res. apply tame_ret.
    + apply tame_bind; [apply tame_try_parse|]. intros f.
      apply tame_bind.
      * intros e He.
        destruct (try_except_all_returns
                    (numeric <- call (Sympy.evalf B f) ;;
                     ret ((lit "Ifoda: " ++ Sympy.show B f ++ NL)
                          ++ lit "Taqribiy qiymat: "
                          ++ Sympy.show B numeric ++ NL))
                    (lit "Ifoda: " ++ Sympy.show B f ++ NL)) as [a Ha].
        rewrite Ha in He. discriminate He.
      * intros out.
        apply tame_bind; [apply tame_call, (Sympy.simplify_exc HB)|].
        intros g. apply tame_ret.
Qed.

End Tame.

Local Ltac only_base_clauses :=
  repeat (apply Forall_cons; [cbn [fst]; auto|]); apply Forall_nil.

Lemma try_except_passes {A} (e : exn)
    (clauses : list (except_clause * (exn -> io A))) :
  is_Exception e = false ->
  Forall (fun c => fst c = except_Exception \/ fst c = except_ImportError)
    clauses ->
  try_except (raise e) clauses = raise e.
Proof.
  intros He Hc. unfold try_except, raise.
  assert (Hf : find (fun c => catches (fst c) e) clauses = None).
  { assert (Hx : catches except_Exception e = false
                 /\ catches except_ImportError e = false).
    { unfold is_Exception in He. unfold catches.
      destruct (exn_class e); try discriminate He; split; reflexivity. }
    induction Hc as [|[c h] clauses Hc _ IH]; [reflexivity|].
    cbn [find fst]. cbn [fst] in Hc.
    destruct Hc as [-> | ->];
      [rewrite (proj1 Hx) | rewrite (proj2 Hx)]; exact IH. }
  rewrite Hf. reflexivity.
Qed.

(** C2, as the code has it. No handler propagates an instance of
    [Exception]: whatever leaves the equation, integral, derivative, plot or
    generic handler is not one, and the limit handler returns a text
    whatever happens; so when every error of the backend is an instance of
    [Exception], each of the six handlers returns a text, whatever the
    line.  An exception that is not an instance of [Exception], raised by
    the parser, does leave the five handlers. *)
Theorem handlers_return_text (text : str) :
  (forall e,
     returned (handle_equation B text) = Raise e
     \/ returned (handle_integral lower B text) = Raise e
     \/ returned (handle_derivative lower B text) = Raise e
     \/ returned (handle_plot B text) = Raise e
     \/ returned (handle_other lower B text) = Raise e ->
     is_Exception e = false)
  /\ (exists s, returned (handle_limit B text) = Ok s)
  /\ (Sympy.Ordinary B ->
      (exists s, returned (handle_equation B text) = Ok s)
      /\ (exists s, returned (handle_integral lower B text) = Ok s)
      /\ (exists s, returned (handle_derivative lower B text) = Ok s)
      /\ (exists s, returned (handle_plot B text) = Ok s)
      /\ (exists s, returned (handle_other lower B text) = Ok s))
  /\ (forall e,
        is_Exception e = false ->
        (forall left_ right_,
           split1 (lit "=") text = [left_; right_] ->
           Sympy.parse_expr B (normalize left_) = Raise e ->
           handle_equation B text = raise e)
        /\ (Sympy.parse_expr B (normalize (integral_operand lower text))
            = Raise e ->
            handle_integral lower B text = raise e)
        /\ (Sympy.parse_expr B (normalize (derivative_operand lower text))
            = Raise e ->
            handle_derivative lower B text = raise e)
        /\ (Sympy.parse_expr B (normalize (strip (slice_from 4 text)))
            = Raise e ->
            handle_plot B text = raise e)
        /\ (Sympy.parse_expr B (normalize text) = Raise e ->
            handle_other lower B text = raise e)).
Proof.
  split; [|split; [|split]].
  - intros e H.
    destruct (handlers_stop_every_Exception text e)
      as [H1 [H2 [H3 [_ [H5 H6]]]]].
    destruct H as [H|[H|[H|[H|H]]]]; auto.
  - unfold handle_limit. apply try_except_all_returns.
  - intros HB.
    destruct (handlers_return_when_ordinary HB text)
      as [H1 [H2 [H3 [_ [H5 H6]]]]].
    repeat split; assumption.
  - intros e He.
    split; [|split; [|split; [|split]]].
    + intros left_ right_ Hsplit Hp.
      unfold handle_equation, try_parse. rewrite Hsplit.
      cbn [unpack2]. rewrite bind_ret, (bind_raise _ Hp).
      apply try_except_passes; [exact He | only_base_clauses].
    + intros Hp. unfold handle_integral, try_parse.
      rewrite (bind_raise _ Hp).
      apply try_except_passes; [exact He | only_base_clauses].
    + intros Hp. unfold handle_derivative, try_parse.
      rewrite (bind_raise _ Hp).
      apply try_except_passes; [exact He | only_base_clauses].
    + intros Hp. unfold handle_plot, try_parse.
      rewrite (bind_raise _ Hp).
      apply try_except_passes; [exact He | only_base_clauses].
    + intros Hp. unfold handle_other, try_parse.
      rewrite (normalize_on_clean (normalize_clean text)), strip_normalize.
      destruct (startswith_any _ _); rewrite (bind_raise _ Hp);
        (apply try_except_passes; [exact He | only_base_clauses]).
Qed.

End Handlers.

(** ** The dispatcher and the loop *)

Section Repl.

Import PyFacts.

Variable lower : str -> str.
Variable B : Sympy.Backend.

(** The chain of tests of main is the first-match reading of the routing
    table. *)
Lemma dispatch_is_first_match (text : str) :
  dispatch lower B text
  = perform lower B (select_route text (lower text)) text.
Proof.
  unfold dispatch, select_route, routing_table, first_match, show_help.
  unfold startswith_any. cbn [existsb].
  destruct (eqb_str (lower text) (lit "exit"));
  destruct (eqb_str (lower text) (lit "quit")); try reflexivity.
  destruct (eqb_str (lower text) (lit "help")); try reflexivity.
  destruct (startswith (lower text) (lit "plot ")); try reflexivity.
  destruct (contains text (lit "="));
  destruct (startswith (lower text) (lit "limit"));
  destruct (startswith (lower text) (lit "int"));
  destruct (startswith (lower text) (lit "diff"));
  destruct (startswith (lower text) (lit "plot"));
  cbn [orb andb negb perform]; try reflexivity;
  destruct (contains (lower text) (lit "integral"));
  destruct (contains (lower text) (lit "integrate"));
  destruct (contains text [INTEGRAL_SIGN]);
  cbn [orb andb negb perform]; try reflexivity;
  destruct (startswith (lower text) (lit "d/d"));
  destruct (startswith (lower text) (lit "derivative"));
  cbn [orb andb negb perform]; try reflexivity;
  destruct (contains (lower text) (lit "limit")); reflexivity.
Qed.

(** C1. For every line that is non-empty once stripped, an iteration of
    the loop prompts and then takes exactly the route that comes first in
    the priority order exit/quit, help, plot, equation, integral,
    derivative, limit, generic, doing what that route prescribes; the help
    route prints the usage text and runs no handler. *)
Theorem iteration_first_match (raw : str) :
  strip raw <> [] ->
  iteration lower B (Ok raw)
  = (print PROMPT ;;
     perform lower B (select_route (strip raw) (lower (strip raw)))
       (strip raw)).
Proof.
  intros Hne. rewrite <- dispatch_is_first_match.
  unfold iteration, input, bind, print, call. cbn [app].
  destruct (strip raw) as [|c t]; [contradiction|]. reflexivity.
Qed.

(** *** The loop *)






End Repl.

(** ** The scripted backend is a backend *)

Section ScriptedFacts.

Import PyFacts.




Local Ltac scripted_error :=
  intros; cbn in *;
  repeat match goal with
         | H : context [if ?c then _ else _] |- _ => destruct c
         | H : context [match ?c with Some _ => _ | None => _ end] |- _ =>
             destruct c
         end;
  match goal with
  | H : _ = Raise _ |- _ => inversion H; reflexivity
  end.

Lemma scripted_ordinary : Sympy.Ordinary scripted.
Proof.
  constructor.
  - unfold scripted; cbn; unfold Scripted.parse_expr. scripted_error.
  - unfold scripted; cbn; unfold Scripted.free_symbols. scripted_error.
  - unfold scripted; cbn; unfold Scripted.Eq. scripted_error.
  - unfold scripted; cbn; unfold Scripted.equals. scripted_error.
  - unfold scripted; cbn; unfold Scripted.solveset. scripted_error.
  - unfold scripted; cbn; unfold Scripted.integrate. scripted_error.
  - unfold scripted; cbn; unfold Scripted.diff. scripted_error.
  - unfold scripted; cbn; unfold Scripted.doit. scripted_error.
  - unfold scripted; cbn; unfold Scripted.evalf. scripted_error.
  - unfold scripted; cbn; unfold Scripted.simplify. scripted_error.
  - unfold scripted; cbn; unfold Scripted.plot. scripted_error.
Qed.

Lemma ascii_lower_no_upper (s : str) :
  Forall (fun c => is_upper c = false) (ascii_lower s).
Proof.
  unfold ascii_lower. apply Forall_forall. intros c Hc.
  apply in_map_iff in Hc. destruct Hc as [d [<- _]].
  unfold ascii_lower_char, is_upper.
  destruct ((65 <=? d) && (d <=? 90))%N eqn:E.
  - apply andb_true_iff in E. destruct E as [E1 E2].
    apply N.leb_le in E1, E2.
    apply andb_false_iff. right. apply N.leb_gt. lia.
  - exact E.
Qed.

End ScriptedFacts.

(** ** The program at work on the scripted backend *)

(** C1 at the line " x^2-4=0 ": it is an equation. *)
Lemma iteration_first_match_witness :
  strip (lit " x^2-4=0 ") <> []
  /\ iteration ascii_lower scripted (Ok (lit " x^2-4=0 "))
     = (print PROMPT ;;
        perform ascii_lower scripted REquation (lit "x^2-4=0")).
Proof.
  split; [vm_compute; discriminate|].
  exact (@iteration_first_match ascii_lower scripted (lit " x^2-4=0 ")
           ltac:(vm_compute; discriminate)).
Defined.

(** C2 where the backend raises: a syntax error of the parser becomes the
    answer of handle_integral, and the interrupt and the exit that leave a
    handler are not instances of [Exception]. *)
Lemma handlers_return_text_witness :
  (returned (handle_integral ascii_lower scripted_interrupted
               (lit "integral x^2")) = Raise interrupt
   /\ is_Exception interrupt = false)
  /\ ((exists s,
         returned (handle_integral ascii_lower scripted (lit "integral )("))
         = Ok s)
      /\ handle_integral ascii_lower scripted (lit "integral )(")
         = ret (lit "Integral xatosi: invalid syntax"))
  /\ handle_other ascii_lower scripted_eval EXIT_CALL = raise system_exit
  /\ (exists s, returned (handle_limit scripted_eval EXIT_CALL) = Ok s).
Proof.
  destruct (@handlers_return_text ascii_lower scripted_interrupted
              (lit "integral x^2")) as [H1 _].
  destruct (@handlers_return_text ascii_lower scripted
              (lit "integral )(")) as [_ [_ [H3 _]]].
  destruct (@handlers_return_text ascii_lower scripted_eval EXIT_CALL)
    as [_ [H2 [_ H4]]].
  split; [split; [reflexivity|]|split; [split|split]].
  - apply (H1 interrupt). right. left. reflexivity.
  - exact (proj1 (proj2 (H3 scripted_ordinary))).
  - reflexivity.
  - apply (proj2 (proj2 (proj2 (proj2 (H4 system_exit eq_refl))))).
    reflexivity.
  - exact H2.
Defined.

(** C2 as stated fails for an exception that is not an instance of
    [Exception]: the [SystemExit] raised while the parser evaluates the line
    leaves handle_other, and every handler but handle_limit. *)
Lemma handlers_never_propagate_counterexample :
  handle_other ascii_lower scripted_eval EXIT_CALL = raise system_exit
  /\ handle_equation scripted_eval (EXIT_CALL ++ lit "=0") = raise system_exit
  /\ handle_limit scripted_eval EXIT_CALL = ret LIMIT_HINT
  /\ ~ handlers_never_propagate ascii_lower scripted_eval.
Proof.
  split; [reflexivity|]. split; [reflexivity|]. split; [reflexivity|].
  intros H.
  destruct (H EXIT_CALL) as [_ [_ [_ [_ [_ [s Hs]]]]]].
  discriminate Hs.
Qed.



(** C4 at "2+3*4", whose value is printed, and at "1,2", a tuple, which
    has no [evalf]. *)
Lemma handle_other_report_witness :
  handle_other ascii_lower scripted (lit "2+3*4")
  = ret (lit "Ifoda: 14" ++ NL
         ++ lit "Taqribiy qiymat: 14.0000000000000" ++ NL
         ++ lit "Soddalashtirilgan: 14")
  /\ handle_other ascii_lower scripted (lit "1,2")
     = ret (lit "Ifoda: (1, 2)" ++ NL ++ lit "Soddalashtirilgan: (1, 2)").
Proof.
  split.
  - exact (@handle_other_report ascii_lower scripted (lit "2+3*4")
             (lit "14") eq_refl eq_refl).
  - exact (@handle_other_report ascii_lower scripted (lit "1,2")
             (lit "(1, 2)") eq_refl eq_refl).
Defined.

(** C4 as stated fails on an expression with free variables that the
    backend evaluates to itself: "x^2" has the free symbol x, and its report
    has the line of the approximate value. *)
Lemma value_line_needs_no_free_symbols_counterexample :
  Sympy.free_symbols scripted (lit "x**2") = Ok [lit "x"]
  /\ handle_other ascii_lower scripted (lit "x^2")
     = ret (lit "Ifoda: x**2" ++ NL ++ lit "Taqribiy qiymat: x**2" ++ NL
            ++ lit "Soddalashtirilgan: x**2")
  /\ ~ value_line_needs_no_free_symbols ascii_lower scripted.
Proof.
  split; [reflexivity|]. split; [reflexivity|].
  intros H.
  destruct (H (lit "x^2") (lit "x**2") [lit "x"] eq_refl eq_refl eq_refl
              ltac:(discriminate)) as [simplified Hs].
  vm_compute in Hs. discriminate Hs.
Qed.

(** A tuple has no [evalf]: the line of the approximate value is left out. *)
Example handle_other_without_value :
  handle_other ascii_lower scripted (lit "1,2")
  = ret (lit "Ifoda: (1, 2)" ++ NL ++ lit "Soddalashtirilgan: (1, 2)").
Proof. reflexivity. Qed.

(** C6 at "integral x^2 dx", at "integrate 2+3*4", which has no free
    symbol, and at "integral 1,2", whose operand parses to a tuple. *)
Lemma handle_integral_format_witness :
  handle_integral ascii_lower scripted (lit "integral x^2 dx")
  = ret ([INTEGRAL_SIGN] ++ lit " (x**2) dx = x**3/3 + C")
  /\ handle_integral ascii_lower scripted (lit "integrate 2+3*4")
     = ret ([INTEGRAL_SIGN] ++ lit " (14) dx = 14*x + C")
  /\ handle_integral ascii_lower scripted (lit "integral 1,2")
     = ret (lit "Integral xatosi: "
            ++ lit "'tuple' object has no attribute 'free_symbols'").
Proof.
  split; [|split].
  - exact (@handle_integral_format ascii_lower scripted
             (lit "integral x^2 dx") (lit "x**2") eq_refl).
  - exact (@handle_integral_format ascii_lower scripted
             (lit "integrate 2+3*4") (lit "14") eq_refl).
  - exact (@handle_integral_format ascii_lower scripted
             (lit "integral 1,2") (lit "(1, 2)") eq_refl).
Defined.

(** C6 as stated fails on "integral 1,2": the text left after the words of
    the command are deleted parses, to a tuple, and the answer is the text
    of an error. *)
Lemma parsed_integral_is_formatted_counterexample :
  Sympy.parse_expr scripted
    (normalize (integral_operand ascii_lower (lit "integral 1,2")))
  = Ok (lit "(1, 2)")
  /\ handle_integral ascii_lower scripted (lit "integral 1,2")
     = ret (lit "Integral xatosi: "
            ++ lit "'tuple' object has no attribute 'free_symbols'")
  /\ ~ parsed_integral_is_formatted ascii_lower scripted.
Proof.
  split; [reflexivity|]. split; [reflexivity|].
  intros H.
  destruct (H (lit "integral 1,2") (lit "(1, 2)") eq_refl)
    as [var [res Hs]].
  vm_compute in Hs. discriminate Hs.
Qed.



(** C9 at "integral X^2" and "DIFF(X**3)", with a parser that knows the
    lowercase operand only, and at "INTEGRAL )(", which does not parse. *)
Lemma handlers_parse_lowercased_witness :
  (handle_integral ascii_lower
     (Sympy.with_parser scripted
        (fun s => if eqb_str s (lit "x**2") then Ok (lit "x**2")
                  else Raise EOFError))
     (lit "integral X^2")
   = handle_integral ascii_lower scripted (lit "integral X^2")
   /\ handle_integral ascii_lower scripted (lit "integral X^2")
      = ret ([INTEGRAL_SIGN] ++ lit " (x**2) dx = x**3/3 + C"))
  /\ handle_integral ascii_lower scripted (lit "INTEGRAL )(")
     = ret (lit "Integral xatosi: invalid syntax")
  /\ Forall (fun c => is_upper c = false) (lit "x**2")
  /\ handle_integral ascii_lower scripted (lit "Integral x^2")
     = handle_integral ascii_lower scripted (lit "integral X^2")
  /\ (handle_derivative ascii_lower
        (Sympy.with_parser scripted
           (fun s => if eqb_str s (lit "(x**3)") then Ok (lit "x**3")
                     else Raise EOFError))
        (lit "DIFF(X**3)")
      = handle_derivative ascii_lower scripted (lit "DIFF(X**3)")
      /\ handle_derivative ascii_lower scripted (lit "DIFF(X**3)")
         = ret (lit "d/dx (x**3) = 3*x**2")).
Proof.
  assert (Hlit : Forall (fun c => is_upper c = false) (lit "*/sqrt-"))
    by (repeat constructor).
  destruct (@handlers_parse_lowercased ascii_lower scripted
              (fun c => is_upper c = false) (lit "integral X^2")
              ascii_lower_no_upper Hlit) as [[Hp [_ [Hc Hi]]] _].
  destruct (@handlers_parse_lowercased ascii_lower scripted
              (fun c => is_upper c = false) (lit "INTEGRAL )(")
              ascii_lower_no_upper Hlit) as [[_ [He _]] _].
  destruct (@handlers_parse_lowercased ascii_lower scripted
              (fun c => is_upper c = false) (lit "DIFF(X**3)")
              ascii_lower_no_upper Hlit) as [_ Hd].
  split; [split; [|reflexivity]|split; [|split; [|split; [|split]]]].
  - apply Hp. reflexivity.
  - apply (He (Scripted.error (lit "invalid syntax"))); reflexivity.
  - exact Hc.
  - apply Hi. reflexivity.
  - apply (proj1 (Hd eq_refl)). reflexivity.
  - reflexivity.
Defined.

(** C10 at "asin(1/3)+acos(1/3) = pi/2", where the test gives up. *)
Lemma inconclusive_equals_reported_false_witness :
  handle_equation scripted (lit "asin(1/3)+acos(1/3) = pi/2")
  = ret (verdict_header (lit "asin(1/3)+acos(1/3) ") (lit " pi/2")
         ++ lit "Noto'g'ri").
Proof.
  exact (proj1
           (@inconclusive_equals_reported_false scripted
              (lit "asin(1/3)+acos(1/3) = pi/2")
              (lit "asin(1/3)+acos(1/3) ") (lit " pi/2")
              (lit "acos(1/3) + asin(1/3)") (lit "pi/2")
              (lit "Eq(acos(1/3) + asin(1/3), pi/2)") [] [] None
              eq_refl eq_refl eq_refl eq_refl eq_refl eq_refl eq_refl
              eq_refl)
           eq_refl).
Defined.

(** *** Routing, line by line *)

Example route_exit : route_of "EXIT" = RExit.
Proof. reflexivity. Qed.

Example route_exit_is_whole_line : route_of "exit now" = RGeneric.
Proof. reflexivity. Qed.

Example route_help : route_of "Help" = RHelp.
Proof. reflexivity. Qed.

Example route_plot : route_of "plot x^2" = RPlot.
Proof. reflexivity. Qed.

Example route_plot_before_equation : route_of "plot y=x^2" = RPlot.
Proof. reflexivity. Qed.

Example route_equation : route_of "x^2-4=0" = REquation.
Proof. reflexivity. Qed.

(** An equation that mentions a limit is still an equation ... *)
Example route_equation_before_limit :
  route_of "2*limit(sin(x)/x, x, 0) = 2" = REquation.
Proof. reflexivity. Qed.

(** ... unless the line begins with the word. *)
Example route_limit_with_equals : route_of "limit(x**2, x, 2) = 4" = RLimit.
Proof. reflexivity. Qed.

Example route_integral : route_of "integral x^2 dx" = RIntegral.
Proof. reflexivity. Qed.

Example route_integral_before_derivative :
  route_of "diff(integrate(x))" = RIntegral.
Proof. reflexivity. Qed.

Example route_derivative : route_of "d/dx x^3" = RDerivative.
Proof. reflexivity. Qed.

Example route_limit : route_of "limit(sin(x)/x, x, 0)" = RLimit.
Proof. reflexivity. Qed.

Example route_generic : route_of "2+3*4" = RGeneric.
Proof. reflexivity. Qed.

(** *** Transcripts *)

Example session :
  main ascii_lower scripted
    [Ok (lit "2+3*4"); Ok (lit "x^2-4=0"); Ok (lit "diff(x**3)");
     Raise EOFError; Ok (lit " quit "); Ok (lit "help")]
  = ([lit "=== Pydroid Matematik Yechuvchi ===";
      lit "Buyruqni kiritib Enter bosing (Yordam uchun: help)";
      PROMPT;
      lit "Ifoda: 14" ++ NL ++ lit "Taqribiy qiymat: 14.0000000000000" ++ NL
      ++ lit "Soddalashtirilgan: 14";
      PROMPT;
      lit "Tenglama: x^2-4 = 0" ++ NL ++ lit "O'zgaruvchi: x" ++ NL
      ++ lit "Yechim: {-2, 2}";
      PROMPT;
      lit "d/dx (x**3) = 3*x**2";
      PROMPT;
      lit "Dastur xatosi: EOF when reading a line";
      PROMPT;
      lit "Dastur tugatildi."],
     Terminated).
Proof. reflexivity. Qed.

(** An expression with free symbols that the backend evaluates to itself
    keeps its line of the approximate value. *)
Example handle_other_symbolic :
  handle_other ascii_lower scripted (lit "x^2")
  = ret (lit "Ifoda: x**2" ++ NL ++ lit "Taqribiy qiymat: x**2" ++ NL
         ++ lit "Soddalashtirilgan: x**2").
Proof. reflexivity. Qed.

Example handle_limit_unparsed :
  handle_limit scripted (lit "limit foo") = ret LIMIT_HINT.
Proof. reflexivity. Qed.

Example handle_limit_value :
  handle_limit scripted (lit "limit(sin(x)/x, x, 0)")
  = ret (lit "Limit natijasi: 1").
Proof. reflexivity. Qed.

(** *** Ctrl-C while the backend runs *)

(** [except Exception] lets a [KeyboardInterrupt] through ... *)
Example interrupt_leaves_handle_integral :
  handle_integral ascii_lower scripted_interrupted (lit "integral x^2")
  = raise interrupt.
Proof. reflexivity. Qed.

(** ... the bare [except] of handle_limit does not ... *)
Example interrupt_kept_by_handle_limit :
  handle_limit scripted_interrupted (lit "limit(sin(x)/x, x, 0)")
  = ret LIMIT_HINT.
Proof. reflexivity. Qed.

(** ... and main ends on the interrupt that reaches it. *)
Example interrupt_ends_main :
  main ascii_lower scripted_interrupted
    [Ok (lit "limit(sin(x)/x, x, 0)"); Ok (lit "integral x^2");
     Ok (lit "2+2")]
  = ([lit "=== Pydroid Matematik Yechuvchi ===";
      lit "Buyruqni kiritib Enter bosing (Yordam uchun: help)";
      PROMPT; LIMIT_HINT;
      PROMPT; NL ++ lit "Dastur to'xtatildi."],
     Terminated).
Proof. reflexivity. Qed.

(** * Further properties of the program *)

(** ** Whitespace *)

Module StripFacts.

Import PyFacts.

Lemma lstrip_spaces (pre t : str) :
  forallb is_space pre = true -> lstrip (pre ++ t) = lstrip t.
Proof.
  induction pre as [|c pre IH]; cbn [forallb app lstrip]; [reflexivity|].
  intros H. apply andb_true_iff in H. destruct H as [Hc Hpre].
  rewrite Hc. exact (IH Hpre).
Qed.

Lemma forallb_rev (f : char -> bool) (s : str) :
  forallb f (rev s) = forallb f s.
Proof.
  induction s as [|c s IH]; [reflexivity|].
  cbn [rev forallb]. rewrite forallb_app, IH. cbn [forallb].
  rewrite andb_true_r. apply andb_comm.
Qed.

Lemma rstrip_spaces (t post : str) :
  forallb is_space post = true -> rstrip (t ++ post) = rstrip t.
Proof.
  intros H. unfold rstrip. rewrite rev_app_distr.
  rewrite lstrip_spaces by (rewrite forallb_rev; exact H). reflexivity.
Qed.

Lemma lstrip_all_space (s : str) :
  forallb is_space s = true -> lstrip s = [].
Proof.
  intros H. rewrite <- (app_nil_r s). rewrite (@lstrip_spaces s [] H).
  reflexivity.
Qed.

Lemma lstrip_nil_all_space (s : str) :
  lstrip s = [] -> forallb is_space s = true.
Proof.
  induction s as [|c s IH]; [reflexivity|]. cbn [lstrip forallb].
  destruct (is_space c); [exact IH | discriminate].
Qed.

Lemma lstrip_app_not_all (a b : str) :
  forallb is_space a = false -> lstrip (a ++ b) = lstrip a ++ b.
Proof.
  induction a as [|c a IH]; cbn [forallb app lstrip]; [discriminate|].
  destruct (is_space c); cbn [andb]; [exact IH | reflexivity].
Qed.

(** rstrip, read from the left. *)
Lemma rstrip_cons (c : char) (s : str) :
  rstrip (c :: s)
  = if is_space c && forallb is_space s then [] else c :: rstrip s.
Proof.
  unfold rstrip. cbn [rev].
  destruct (forallb is_space s) eqn:Hs.
  - rewrite lstrip_spaces by (rewrite forallb_rev; exact Hs).
    rewrite (lstrip_all_space (rev s)) by (rewrite forallb_rev; exact Hs).
    rewrite andb_true_r. cbn [lstrip]. destruct (is_space c); reflexivity.
  - rewrite lstrip_app_not_all by (rewrite forallb_rev; exact Hs).
    rewrite andb_false_r, rev_app_distr. reflexivity.
Qed.

Lemma rstrip_all_space (s : str) :
  forallb is_space s = true -> rstrip s = [].
Proof.
  intros H. unfold rstrip.
  rewrite lstrip_all_space by (rewrite forallb_rev; exact H). reflexivity.
Qed.

(** Stripping on the left and on the right commute. *)
Lemma rstrip_lstrip_comm (s : str) : rstrip (lstrip s) = lstrip (rstrip s).
Proof.
  induction s as [|c s IH]; [reflexivity|].
  rewrite rstrip_cons. cbn [lstrip].
  destruct (is_space c) eqn:Hc; cbn [andb].
  - rewrite IH. destruct (forallb is_space s) eqn:Hs.
    + rewrite (@rstrip_all_space s Hs). reflexivity.
    + cbn [lstrip]. rewrite Hc. reflexivity.
  - rewrite rstrip_cons, Hc. cbn [andb lstrip]. rewrite Hc. reflexivity.
Qed.

Lemma strip_padded (pre s post : str) :
  forallb is_space pre = true -> forallb is_space post = true ->
  strip (pre ++ s ++ post) = strip s.
Proof.
  intros Hpre Hpost. unfold strip.
  rewrite (@lstrip_spaces pre _ Hpre).
  rewrite rstrip_lstrip_comm, (@rstrip_spaces s post Hpost).
  symmetry. apply rstrip_lstrip_comm.
Qed.

Lemma strip_all_space (s : str) :
  forallb is_space s = true -> strip s = [].
Proof.
  intros H. unfold strip. rewrite (@lstrip_all_space s H). reflexivity.
Qed.

Lemma strip_head (s : str) c r : strip s = c :: r -> is_space c = false.
Proof.
  intros H. pose proof (lstrip_rstrip_lstrip s) as E.
  fold (strip s) in E. rewrite H in E.
  cbn [lstrip] in E. destruct (is_space c) eqn:Hc; [|reflexivity].
  exfalso.
  assert (L : length (lstrip r) <= length r).
  { clear. induction r as [|d r IH]; cbn [lstrip]; [lia|].
    destruct (is_space d); cbn [length]; lia. }
  rewrite E in L. cbn [length] in L. lia.
Qed.

Lemma strip_last (s : str) r c : strip s = r ++ [c] -> is_space c = false.
Proof.
  intros H. unfold strip, rstrip in H.
  apply (f_equal (@rev char)) in H.
  rewrite rev_involutive, rev_app_distr in H. cbn [rev app] in H.
  exact (@lstrip_head _ _ _ H).
Qed.

End StripFacts.

(** ** normalize, character by character *)

Section NormalizeShape.

Import PyFacts StripFacts.

Lemma flat_map_comp (f g : char -> str) (s : str) :
  flat_map g (flat_map f s) = flat_map (fun c => flat_map g (f c)) s.
Proof.
  induction s as [|c s IH]; [reflexivity|].
  cbn [flat_map]. rewrite flat_map_app, IH. reflexivity.
Qed.

Lemma normalize_rewrite (s : str) :
  normalize s = strip (flat_map rewrite_char s).
Proof.
  unfold normalize. f_equal.
  change (lit "^") with [94%N]. change (lit ":") with [58%N].
  rewrite !replace_single, !flat_map_comp.
  apply flat_map_ext. intros c. unfold rewrite_char.
  destruct (c =? 94)%N eqn:E1; [reflexivity|]. cbn [flat_map app].
  destruct (c =? MULTIPLICATION_SIGN)%N eqn:E2; [reflexivity|].
  cbn [flat_map app].
  destruct (c =? DIVISION_SIGN)%N eqn:E3; [reflexivity|].
  cbn [flat_map app].
  destruct (c =? 58)%N eqn:E4; [reflexivity|]. cbn [flat_map app].
  destruct (c =? SQUARE_ROOT)%N eqn:E5; [reflexivity|]. cbn [flat_map app].
  destruct (c =? EM_DASH)%N eqn:E6; [reflexivity|]. cbn [flat_map app].
  destruct (c =? EN_DASH)%N eqn:E7; reflexivity.
Qed.

(** X1. The seven replacements of normalize, made one after the other, come
    to one pass that rewrites each character on its own (what a replacement
    writes is never rewritten by a later one), followed by the strip; text
    that holds none of the seven characters is only stripped. *)
Theorem normalize_charwise (s : str) :
  normalize s = strip (flat_map rewrite_char s)
  /\ (Forall (fun d => ~ In d special_chars) s -> normalize s = strip s).
Proof.
  split; [apply normalize_rewrite | apply normalize_on_clean].
Qed.

(** X2. What normalize returns contains none of the characters it rewrites
    and neither begins nor ends with whitespace. *)
Theorem normalize_output_shape (s : str) :
  (forall d, In d (normalize s) -> ~ In d special_chars)
  /\ (forall c r, normalize s = c :: r -> is_space c = false)
  /\ (forall r c, normalize s = r ++ [c] -> is_space c = false).
Proof.
  split; [|split].
  - apply Forall_forall. apply normalize_clean.
  - intros c r H. rewrite <- strip_normalize in H.
    exact (@strip_head _ _ _ H).
  - intros r c H. rewrite <- strip_normalize in H.
    exact (@strip_last _ _ _ H).
Qed.

Lemma rewrite_char_space (c : char) :
  is_space c = true -> rewrite_char c = [c].
Proof.
  intros H. unfold rewrite_char.
  repeat match goal with
         | |- context [(c =? ?k)%N] =>
             destruct (N.eqb_spec c k) as [E|_];
             [rewrite E in H; discriminate H|]
         end.
  reflexivity.
Qed.

Lemma rewrite_spaces (w : str) :
  forallb is_space w = true -> flat_map rewrite_char w = w.
Proof.
  induction w as [|c w IH]; [reflexivity|]. cbn [forallb flat_map].
  intros H. apply andb_true_iff in H. destruct H as [Hc Hw].
  rewrite (rewrite_char_space _ Hc), (IH Hw). reflexivity.
Qed.

(** X3. Whitespace around the text does not matter to normalize. *)
Theorem normalize_ignores_outer_whitespace (pre s post : str) :
  forallb is_space pre = true -> forallb is_space post = true ->
  normalize (pre ++ s ++ post) = normalize s.
Proof.
  intros Hpre Hpost. rewrite !normalize_rewrite.
  rewrite !flat_map_app.
  rewrite (rewrite_spaces _ Hpre), (rewrite_spaces _ Hpost).
  apply strip_padded; assumption.
Qed.

End NormalizeShape.

(** ** Splitting an equation *)

Module SplitFacts.

Lemma contains_char (c : char) (s : str) :
  contains s [c] = true <-> In c s.
Proof.
  induction s as [|d s IH]; cbn [contains startswith In].
  - split; [discriminate | contradiction].
  - rewrite orb_true_iff, IH, andb_true_iff.
    destruct s; cbn [startswith]; rewrite N.eqb_eq; intuition congruence.
Qed.

Lemma contains_char_false (c : char) (s : str) :
  contains s [c] = false <-> ~ In c s.
Proof.
  rewrite <- contains_char. destruct (contains s [c]); split; congruence.
Qed.

Lemma cut_char_Some (c : char) (s a b : str) :
  cut [c] s = Some (a, b) -> s = a ++ c :: b /\ ~ In c a.
Proof.
  revert a. induction s as [|d s IH]; intros a; cbn [cut startswith length].
  - discriminate.
  - destruct (N.eqb_spec d c) as [->|Hd]; cbn [andb].
    + assert (E : startswith s [] = true) by (destruct s; reflexivity).
      rewrite E. cbn [skipn]. intros H. injection H as <- <-.
      split; [reflexivity | intros []].
    + destruct (cut [c] s) as [[a' b']|] eqn:Hc; [|discriminate].
      intros H. injection H as <- <-.
      destruct (IH a' eq_refl) as [-> Hn].
      split; [reflexivity|]. intros [E|Hin]; [congruence | exact (Hn Hin)].
Qed.

Lemma cut_char_None (c : char) (s : str) :
  cut [c] s = None -> ~ In c s.
Proof.
  induction s as [|d s IH]; cbn [cut startswith length].
  - intros _ [].
  - destruct (N.eqb_spec d c) as [->|Hd]; cbn [andb].
    + assert (E : startswith s [] = true) by (destruct s; reflexivity).
      rewrite E. discriminate.
    + destruct (cut [c] s) as [[a' b']|]; [discriminate|].
      intros _ [E|Hin]; [congruence | exact (IH eq_refl Hin)].
Qed.

End SplitFacts.

Section Equation.

Import PyFacts SplitFacts.

Variable B : Sympy.Backend.

(** X4. A text that contains '=' is split at its first '=': the two sides
    put back around '=' give the text, and the left side holds no '='
    (every later '=' stays in the right side). *)
Theorem equation_split (text : str) :
  contains text (lit "=") = true ->
  exists left_ right_,
    split1 (lit "=") text = [left_; right_]
    /\ text = left_ ++ lit "=" ++ right_
    /\ contains left_ (lit "=") = false.
Proof.
  change (lit "=") with [61%N]. intros H. apply contains_char in H.
  unfold split1. destruct (cut [61%N] text) as [[a b]|] eqn:Hc.
  - destruct (cut_char_Some _ _ Hc) as [E Hn].
    exists a, b. split; [reflexivity|]. split; [exact E|].
    apply contains_char_false. exact Hn.
  - exfalso. exact (cut_char_None _ _ Hc H).
Qed.

(** X5. Without an '=' in the text the equation handler asks nothing of the
    backend: it answers with the error of the failed unpacking. *)
Theorem handle_equation_without_equals (text : str) :
  contains text (lit "=") = false ->
  handle_equation B text
  = ret (lit "Tenglamada xato: not enough values to unpack (expected 2, got 1)").
Proof.
  change (lit "=") with [61%N]. intros H. apply contains_char_false in H.
  unfold handle_equation, split1. change (lit "=") with [61%N].
  destruct (cut [61%N] text) as [[a b]|] eqn:Hc.
  - exfalso. destruct (cut_char_Some _ _ Hc) as [E _].
    apply H. rewrite E. apply in_or_app. right. left. reflexivity.
  - reflexivity.
Qed.

(** X6. An equation with variables is solved for the first of them, over the
    complex numbers, and the report names the two sides as typed, the
    variable and the solution set. *)
Theorem handle_equation_solves
    text left_ right_ L R q fsL fsR var vars_ sol :
  split1 (lit "=") text = [left_; right_] ->
  Sympy.parse_expr B (normalize left_) = Ok L ->
  Sympy.parse_expr B (normalize right_) = Ok R ->
  Sympy.Eq B L R = Ok q ->
  Sympy.free_symbols B L = Ok fsL ->
  Sympy.free_symbols B R = Ok fsR ->
  Sympy.union B fsL fsR = var :: vars_ ->
  Sympy.solveset B q var = Ok sol ->
  handle_equation B text
  = ret (lit "Tenglama: " ++ left_ ++ lit " = " ++ right_ ++ NL
         ++ lit "O'zgaruvchi: " ++ Sympy.show B var ++ NL
         ++ lit "Yechim: " ++ Sympy.show B sol).
Proof.
  intros Hsplit HL HR Hq HfL HfR Hu Hsol.
  unfold handle_equation, try_parse. rewrite Hsplit.
  cbn [unpack2]. rewrite bind_ret.
  rewrite (bind_ok _ HL), (bind_ok _ HR), (bind_ok _ Hq).
  rewrite (bind_ok _ HfL), (bind_ok _ HfR). rewrite Hu.
  rewrite (bind_ok _ Hsol). reflexivity.
Qed.

End Equation.

(** ** The shape of every answer *)

Section AnswerShapes.

Import PyFacts.

Variable lower : str -> str.
Variable B : Sympy.Backend.

Lemma settles_ret {A} (P : A -> Prop) (a : A) : P a -> settles P (ret a).
Proof. intros H. split; [reflexivity | exact H]. Qed.

Lemma settles_call {A} (P : A -> Prop) (r : result A) :
  (forall e, r = Raise e -> is_Exception e = true) ->
  (forall a, r = Ok a -> P a) ->
  settles P (call r).
Proof.
  intros He Ha. split; [reflexivity|]. cbn.
  destruct r as [a|e]; [apply Ha | apply He]; reflexivity.
Qed.

Lemma settles_bind {A C} (Q : A -> Prop) (P : C -> Prop)
    (m : io A) (k : A -> io C) :
  settles Q m -> (forall a, Q a -> settles P (k a)) -> settles P (bind m k).
Proof.
  intros [Hout Hm] Hk. destruct m as [out [a|e]]; cbn in Hout, Hm; subst out.
  - specialize (Hk a Hm). unfold bind. destruct (k a) as [out' r].
    exact Hk.
  - split; [reflexivity | exact Hm].
Qed.

Lemma settles_unpack2 (parts : list str) :
  settles (fun _ => True) (unpack2 parts).
Proof.
  destruct parts as [|a [|b [|c parts]]]; split; cbn; auto.
Qed.

(** [try: ... except Exception as e: return h(e)] around a body that
    settles on [P]. *)
Lemma settles_try (P : str -> Prop) (m : io str) (h : exn -> str) :
  settles P m ->
  exists s,
    try_except m [(except_Exception, fun e => ret (h e))] = ret s
    /\ (P s \/ exists e, s = h e).
Proof.
  intros [Hout Hm]. destruct m as [out [a|e]]; cbn in Hout, Hm; subst out.
  - exists a. split; [reflexivity | left; exact Hm].
  - exists (h e). split; [|right; exists e; reflexivity].
    unfold is_Exception in Hm. unfold try_except. cbn. unfold catches.
    destruct (exn_class e); try discriminate Hm; reflexivity.
Qed.

(** [try: x = r; out += g(x)  except: pass] *)
Lemma settles_try_all {A} (P : str -> Prop) (r : result A)
    (g : A -> str) (v : str) :
  (forall x, P (g x)) -> P v ->
  settles P (try_except (x <- call r ;; ret (g x))
               [(except_all, fun _ => ret v)]).
Proof.
  intros Hg Hv. destruct r as [x|e].
  - rewrite (bind_ok _ (eq_refl (Ok x))). split; [reflexivity | apply Hg].
  - unfold try_except. cbn. unfold catches.
    destruct (exn_class e); split; try reflexivity; exact Hv.
Qed.

Lemma startswith_prefix (p t : str) : startswith (p ++ t) p = true.
Proof.
  induction p as [|a p IH]; [destruct t; reflexivity|].
  cbn [app startswith]. rewrite N.eqb_refl. exact IH.
Qed.

Lemma startswith_app_l (s t p : str) :
  startswith s p = true -> startswith (s ++ t) p = true.
Proof.
  revert s. induction p as [|a p IH]; intros s;
    [destruct s, t; reflexivity|].
  destruct s as [|c s]; cbn [startswith app]; [discriminate|].
  intros H. apply andb_true_iff in H. destruct H as [H1 H2].
  rewrite H1, (IH _ H2). reflexivity.
Qed.

Hypothesis HB : Sympy.Ordinary B.

Lemma settles_parse (s : str) : settles (fun _ => True) (try_parse B s).
Proof.
  apply settles_call; [apply (Sympy.parse_expr_exc HB) | trivial].
Qed.

Lemma settles_first_symbol f :
  settles (fun _ => True) (first_symbol_or_x B f).
Proof.
  apply (settles_bind (Q := fun _ => True)).
  - apply settles_call; [apply (Sympy.free_symbols_exc HB) | trivial].
  - intros [|v fs] _; apply settles_ret; trivial.
Qed.

Lemma equation_answer (text : str) :
  exists s, handle_equation B text = ret s
    /\ (startswith s (lit "Tenglama: ") = true
        \/ startswith s (lit "Tenglamada xato: ") = true).
Proof.
  unfold handle_equation.
  match goal with
  | |- exists s, try_except ?m _ = _ /\ _ =>
      destruct (@settles_try (fun s => startswith s (lit "Tenglama: ") = true) m
                  (fun e => lit "Tenglamada xato: " ++ exn_msg e))
        as [s [Hs Hshape]]
  end.
  + apply (settles_bind (Q := fun _ => True)); [apply settles_unpack2|].
    intros [left_ right_] _.
    apply (settles_bind (Q := fun _ => True)); [apply settles_parse|].
    intros L _.
    apply (settles_bind (Q := fun _ => True)); [apply settles_parse|].
    intros R _.
    apply (settles_bind (Q := fun _ => True));
      [apply settles_call; [apply (Sympy.Eq_exc HB) | trivial]|].
    intros q _.
    apply (settles_bind (Q := fun _ => True));
      [apply settles_call; [apply (Sympy.free_symbols_exc HB) | trivial]|].
    intros fsL _.
    apply (settles_bind (Q := fun _ => True));
      [apply settles_call; [apply (Sympy.free_symbols_exc HB) | trivial]|].
    intros fsR _.
    destruct (Sympy.union B fsL fsR) as [|var vars_].
    * apply (settles_bind (Q := fun _ => True));
        [apply settles_call; [apply (Sympy.equals_exc HB) | trivial]|].
      intros v _. apply settles_ret. apply startswith_prefix.
    * apply (settles_bind (Q := fun _ => True));
        [apply settles_call; [apply (Sympy.solveset_exc HB) | trivial]|].
      intros sol _. apply settles_ret. apply startswith_prefix.
  + exists s. split; [exact Hs|].
    destruct Hshape as [H|[e ->]];
      [left; exact H | right; apply startswith_prefix].
Qed.

Lemma integral_answer (text : str) :
  exists s, handle_integral lower B text = ret s
    /\ (startswith s ([INTEGRAL_SIGN] ++ lit " (") = true
        \/ startswith s (lit "Integral xatosi: ") = true).
Proof.
  unfold handle_integral.
  match goal with
  | |- exists s, try_except ?m _ = _ /\ _ =>
      destruct (@settles_try (fun s => startswith s ([INTEGRAL_SIGN] ++ lit " (") = true) m
                  (fun e => lit "Integral xatosi: " ++ exn_msg e))
        as [s [Hs Hshape]]
  end.
  + apply (settles_bind (Q := fun _ => True)); [apply settles_parse|].
    intros f _.
    apply (settles_bind (Q := fun _ => True));
      [apply settles_first_symbol|].
    intros var _.
    apply (settles_bind (Q := fun _ => True));
      [apply settles_call; [apply (Sympy.integrate_exc HB) | trivial]|].
    intros res _. apply settles_ret.
    rewrite app_assoc. apply startswith_prefix.
  + exists s. split; [exact Hs|].
    destruct Hshape as [H|[e ->]];
      [left; exact H | right; apply startswith_prefix].
Qed.

Lemma derivative_answer (text : str) :
  exists s, handle_derivative lower B text = ret s
    /\ (startswith s (lit "d/d") = true
        \/ startswith s (lit "Hosila xatosi: ") = true).
Proof.
  unfold handle_derivative.
  match goal with
  | |- exists s, try_except ?m _ = _ /\ _ =>
      destruct (@settles_try (fun s => startswith s (lit "d/d") = true) m
                  (fun e => lit "Hosila xatosi: " ++ exn_msg e))
        as [s [Hs Hshape]]
  end.
  + apply (settles_bind (Q := fun _ => True)); [apply settles_parse|].
    intros f _.
    apply (settles_bind (Q := fun _ => True));
      [apply settles_first_symbol|].
    intros var _.
    apply (settles_bind (Q := fun _ => True));
      [apply settles_call; [apply (Sympy.diff_exc HB) | trivial]|].
    intros res _. apply settles_ret. apply startswith_prefix.
  + exists s. split; [exact Hs|].
    destruct Hshape as [H|[e ->]];
      [left; exact H | right; apply startswith_prefix].
Qed.

Lemma other_answer (text : str) :
  exists s, handle_other lower B text = ret s
    /\ (startswith s (lit "Natija: ") = true
        \/ startswith s (lit "Ifoda: ") = true
        \/ startswith s (lit "Xato: ") = true).
Proof.
  unfold handle_other.
  match goal with
  | |- exists s, try_except ?m _ = _ /\ _ =>
      destruct (@settles_try
                  (fun s => startswith s (lit "Natija: ") = true
                            \/ startswith s (lit "Ifoda: ") = true)
                  m (fun e => lit "Xato: " ++ exn_msg e))
        as [s [Hs Hshape]]
  end.
  + cbv zeta. destruct (startswith_any _ _).
    * apply (settles_bind (Q := fun _ => True)); [apply settles_parse|].
      intros res _. apply settles_ret. left. apply startswith_prefix.
    * apply (settles_bind (Q := fun _ => True)); [apply settles_parse|].
      intros f _.
      apply (settles_bind
               (Q := fun out => startswith out (lit "Ifoda: ") = true)).
      -- apply settles_try_all; [|apply startswith_prefix].
         intros numeric. apply startswith_app_l, startswith_prefix.
      -- intros out Hout.
         apply (settles_bind (Q := fun _ => True));
           [apply settles_call; [apply (Sympy.simplify_exc HB) | trivial]|].
         intros g _. apply settles_ret. right.
         apply startswith_app_l. exact Hout.
  + exists s. split; [exact Hs|].
    destruct Hshape as [[H|H]|[e ->]]; auto.
    right. right. apply startswith_prefix.
Qed.

(** X7. With a backend whose errors are instances of [Exception], every
    answer of the equation, integral, derivative and generic handlers has
    one of the handler's own shapes, a report or an error message under the
    handler's label, and the handler prints nothing itself. *)
Theorem handlers_answer_shapes (text : str) :
  (exists s, handle_equation B text = ret s
     /\ (startswith s (lit "Tenglama: ") = true
         \/ startswith s (lit "Tenglamada xato: ") = true))
  /\ (exists s, handle_integral lower B text = ret s
        /\ (startswith s ([INTEGRAL_SIGN] ++ lit " (") = true
            \/ startswith s (lit "Integral xatosi: ") = true))
  /\ (exists s, handle_derivative lower B text = ret s
        /\ (startswith s (lit "d/d") = true
            \/ startswith s (lit "Hosila xatosi: ") = true))
  /\ (exists s, handle_other lower B text = ret s
        /\ (startswith s (lit "Natija: ") = true
            \/ startswith s (lit "Ifoda: ") = true
            \/ startswith s (lit "Xato: ") = true)).
Proof.
  split; [apply equation_answer|].
  split; [apply integral_answer|].
  split; [apply derivative_answer | apply other_answer].
Qed.

End AnswerShapes.

(** ** The derivative, generic and plot handlers *)

Section MoreHandlers.

Import PyFacts StripFacts.

Variable lower : str -> str.
Variable B : Sympy.Backend.

(** X8. On the derivative route, when the operand parses to [f], the answer
    is [d/d<var> (f) = <res>], where [var] is the first free symbol of [f],
    or [x] when [f] has none, and [res] the derivative of [f] with respect
    to [var]. *)
Theorem handle_derivative_format (text : str) f fs res :
  Sympy.parse_expr B (normalize (derivative_operand lower text)) = Ok f ->
  Sympy.free_symbols B f = Ok fs ->
  Sympy.diff B f (hd (Sympy.x B) fs) = Ok res ->
  handle_derivative lower B text
  = ret (lit "d/d" ++ Sympy.show B (hd (Sympy.x B) fs) ++ lit " ("
         ++ Sympy.show B f ++ lit ") = " ++ Sympy.show B res).
Proof.
  intros Hf Hfs Hres.
  unfold handle_derivative, try_parse, first_symbol_or_x.
  rewrite (bind_ok _ Hf), (bind_ok _ Hfs).
  destruct fs as [|v fs']; cbn [hd] in *;
    rewrite bind_ret, (bind_ok _ Hres); reflexivity.
Qed.

Lemma span_word_token (tok : str) (sp : char) (rest : str) :
  forallb (fun c => negb (is_space c)) tok = true ->
  is_space sp = true ->
  span_word (tok ++ sp :: rest) = (tok, sp :: rest).
Proof.
  intros Htok Hsp. induction tok as [|c tok IH]; cbn [app span_word].
  - rewrite Hsp. reflexivity.
  - cbn [forallb] in Htok. apply andb_true_iff in Htok.
    destruct Htok as [Hc Htok]. apply negb_true_iff in Hc.
    rewrite Hc, (IH Htok). reflexivity.
Qed.

(** [text.split(None, 1)] on a first word followed by more text. *)
Lemma split_ws1_token (tok : str) (sp : char) (rest : str) :
  tok <> [] ->
  forallb (fun c => negb (is_space c)) tok = true ->
  is_space sp = true ->
  lstrip rest <> [] ->
  split_ws1 (tok ++ sp :: rest) = [tok; lstrip rest].
Proof.
  intros Hne Htok Hsp Hrest. unfold split_ws1.
  destruct tok as [|c tok]; [contradiction|].
  pose proof Htok as Htok'. cbn [forallb] in Htok'.
  apply andb_true_iff in Htok'. destruct Htok' as [Hc _].
  apply negb_true_iff in Hc.
  change ((c :: tok) ++ sp :: rest) with (c :: (tok ++ sp :: rest)).
  rewrite (@lstrip_fixed c _ Hc).
  change (c :: (tok ++ sp :: rest)) with ((c :: tok) ++ sp :: rest).
  rewrite (@span_word_token _ _ rest Htok Hsp).
  cbn [lstrip]. rewrite Hsp.
  destruct (lstrip rest) as [|d r]; [contradiction | reflexivity].
Qed.

(** X9. In the 'd/d' form the derivative handler keeps what follows the
    first word, in the case it was typed, and drops the word itself: the
    variable named after 'd/d' plays no part, and two lines that differ only
    in that word get the same answer. *)
Theorem derivative_drops_first_word (tok1 tok2 : str) (sp : char)
    (rest : str) :
  tok1 <> [] -> tok2 <> [] ->
  forallb (fun c => negb (is_space c)) tok1 = true ->
  forallb (fun c => negb (is_space c)) tok2 = true ->
  is_space sp = true ->
  lstrip rest <> [] ->
  startswith (lower (tok1 ++ sp :: rest)) (lit "d/d") = true ->
  startswith (lower (tok2 ++ sp :: rest)) (lit "d/d") = true ->
  derivative_operand lower (tok1 ++ sp :: rest)
  = strip (replace (lit "diff") []
             (replace (lit "derivative") [] (lstrip rest)))
  /\ handle_derivative lower B (tok1 ++ sp :: rest)
     = handle_derivative lower B (tok2 ++ sp :: rest).
Proof.
  intros Hn1 Hn2 Ht1 Ht2 Hsp Hrest Hd1 Hd2.
  assert (E : forall tok,
             tok <> [] ->
             forallb (fun c => negb (is_space c)) tok = true ->
             startswith (lower (tok ++ sp :: rest)) (lit "d/d") = true ->
             derivative_operand lower (tok ++ sp :: rest)
             = strip (replace (lit "diff") []
                        (replace (lit "derivative") [] (lstrip rest)))).
  { intros tok Hn Ht Hd. unfold derivative_operand.
    rewrite Hd, (@split_ws1_token _ _ _ Hn Ht Hsp Hrest). reflexivity. }
  split; [exact (E tok1 Hn1 Ht1 Hd1)|].
  unfold handle_derivative.
  rewrite (E tok1 Hn1 Ht1 Hd1), (E tok2 Hn2 Ht2 Hd2). reflexivity.
Qed.

(** X10. When the normalised, lowercased text begins with 'factor', 'expand'
    or 'simplify' and parses, the generic handler answers with the parsed
    form alone: neither the approximate value nor the simplified form is
    computed. *)
Theorem handle_other_keyword (expr_text : str) res :
  startswith_any (lower (normalize expr_text))
    [lit "factor"; lit "expand"; lit "simplify"] = true ->
  Sympy.parse_expr B (normalize expr_text) = Ok res ->
  handle_other lower B expr_text = ret (lit "Natija: " ++ Sympy.show B res).
Proof.
  intros Hkw Hres. unfold handle_other, try_parse. rewrite Hkw.
  rewrite (normalize_on_clean (normalize_clean expr_text)), strip_normalize.
  rewrite (bind_ok _ Hres). reflexivity.
Qed.

(** X11. The generic and limit handlers answer the same whatever whitespace
    surrounds the text. *)
Theorem handlers_ignore_outer_whitespace (pre s post : str) :
  forallb is_space pre = true -> forallb is_space post = true ->
  handle_other lower B (pre ++ s ++ post) = handle_other lower B s
  /\ handle_limit B (pre ++ s ++ post) = handle_limit B s.
Proof.
  intros Hpre Hpost.
  assert (E : normalize (pre ++ s ++ post) = normalize s).
  { rewrite !normalize_rewrite, !flat_map_app.
    rewrite (@rewrite_spaces pre Hpre), (@rewrite_spaces post Hpost).
    apply strip_padded; assumption. }
  unfold handle_other, handle_limit, try_parse. rewrite E. split; reflexivity.
Qed.

(** X12. The plot handler parses the text without its first four
    characters.  When that fails with an instance of [Exception] nothing is
    printed, and when it succeeds the line "Grafik chizilmoqda: ..." is
    printed before the drawing, whatever the drawing does; the answer is
    "Grafik yakunlandi." on success, the hint to install matplotlib on an
    [ImportError], and "Grafik xatosi: ..." on any other [Exception]. *)
Theorem handle_plot_outcome (text : str) :
  let parsed :=
    Sympy.parse_expr B (normalize (strip (slice_from 4 text))) in
  let caught e :=
    match exn_class e with
    | ImportError => MATPLOTLIB_HINT
    | _ => lit "Grafik xatosi: " ++ exn_msg e
    end in
  (forall e, parsed = Raise e -> is_Exception e = true ->
     handle_plot B text = ret (caught e))
  /\ (forall sym, parsed = Ok sym ->
        printed (handle_plot B text)
        = [lit "Grafik chizilmoqda: " ++ Sympy.show B sym ++ lit " ..."]
        /\ (Sympy.plot B sym = Ok tt ->
            returned (handle_plot B text) = Ok (lit "Grafik yakunlandi."))
        /\ (forall e, Sympy.plot B sym = Raise e -> is_Exception e = true ->
              returned (handle_plot B text) = Ok (caught e))).
Proof.
  cbv zeta. split.
  - intros e He Hexc. unfold handle_plot, try_parse.
    rewrite (bind_raise _ He). unfold is_Exception in Hexc.
    unfold try_except, raise. cbn. unfold catches.
    destruct (exn_class e); try discriminate Hexc; reflexivity.
  - intros sym Hsym. unfold handle_plot, try_parse.
    rewrite (bind_ok _ Hsym).
    destruct (Sympy.plot B sym) as [[]|e] eqn:Hplot.
    + cbn. split; [reflexivity|]. split; [reflexivity|].
      intros e He. discriminate He.
    + split; [|split].
      * cbn. unfold catches.
        destruct (exn_class e); reflexivity.
      * intros H. discriminate H.
      * intros e' He' Hexc. injection He' as <-.
        unfold is_Exception in Hexc. cbn. unfold catches.
        destruct (exn_class e); try discriminate Hexc; reflexivity.
Qed.

End MoreHandlers.

(** ** Turns of the loop *)

Section Turns.

Import PyFacts StripFacts.

Variable lower : str -> str.
Variable B : Sympy.Backend.

(** X13. Three kinds of line are answered without any handler, hence the
    same on every backend: a line of whitespace only gets the next prompt;
    exit and quit, in any case and with whitespace around, print the
    farewell and end the loop; help prints the usage text and the loop goes
    on. *)
Theorem control_lines (raw : str) :
  (forallb is_space raw = true ->
     loop_body lower B (Ok raw) = ([PROMPT], Ok Next))
  /\ (strip raw <> [] ->
      lower (strip raw) = lit "exit" \/ lower (strip raw) = lit "quit" ->
      loop_body lower B (Ok raw)
      = ([PROMPT; lit "Dastur tugatildi."], Ok Stop))
  /\ (strip raw <> [] ->
      lower (strip raw) = lit "help" ->
      loop_body lower B (Ok raw) = ([PROMPT; USAGE], Ok Next)).
Proof.
  split; [|split].
  - intros H. unfold loop_body, iteration, input.
    cbn. rewrite (@strip_all_space raw H). reflexivity.
  - intros Hne Hx. unfold loop_body, iteration, input. cbn.
    destruct (strip raw) as [|c t] eqn:Hs; [contradiction|].
    unfold dispatch. destruct Hx as [-> | ->]; reflexivity.
  - intros Hne Hx. unfold loop_body, iteration, input. cbn.
    destruct (strip raw) as [|c t] eqn:Hs; [contradiction|].
    unfold dispatch. rewrite Hx. reflexivity.
Qed.

(** X14. A [KeyboardInterrupt] that reaches the loop, from [input] or out
    of the handler that was running, prints the farewell after what was
    already printed and ends the loop. *)
Theorem interrupt_ends_loop (e : exn) :
  exn_class e = KeyboardInterrupt ->
  loop_body lower B (Raise e)
  = ([PROMPT; NL ++ lit "Dastur to'xtatildi."], Ok Stop)
  /\ (forall line out,
        iteration lower B line = (out, Raise e) ->
        loop_body lower B line
        = (out ++ [NL ++ lit "Dastur to'xtatildi."], Ok Stop)).
Proof.
  intros Hc. split.
  - unfold loop_body, iteration, input, try_except. cbn.
    unfold catches. rewrite Hc. reflexivity.
  - intros line out Hit. unfold loop_body. rewrite Hit.
    unfold try_except. cbn. unfold catches. rewrite Hc. reflexivity.
Qed.

End Turns.

(** ** Routes decided by the first word *)

Section PrefixRoutes.

Import PyFacts.

Lemma startswith_inv (s p : str) :
  startswith s p = true -> exists r, s = p ++ r.
Proof.
  revert s. induction p as [|a p IH]; intros s H.
  - exists s. reflexivity.
  - destruct s as [|c s]; cbn [startswith] in H; [discriminate|].
    apply andb_true_iff in H. destruct H as [Hc Hp].
    apply N.eqb_eq in Hc. subst c.
    destruct (IH _ Hp) as [r ->]. exists r. reflexivity.
Qed.

Lemma startswith_self (p t : str) : startswith (p ++ t) p = true.
Proof.
  induction p as [|a p IH]; [destruct t; reflexivity|].
  cbn [app startswith]. rewrite N.eqb_refl. exact IH.
Qed.

Lemma contains_self (p t : str) : contains (p ++ t) p = true.
Proof.
  destruct (p ++ t) eqn:E; cbn [contains]; rewrite <- E, startswith_self;
    reflexivity.
Qed.

Local Ltac not_equal :=
  match goal with
  | |- context [eqb_str ?a ?b] =>
      destruct (eqb_str_spec a b) as [E|_]; [discriminate E|]
  end.

(** X17. The first word settles the route whatever else the line holds, an
    '=' included.  A line whose lowercase form begins with 'plot ' is a
    plot; one that begins with 'limit' is a limit, and one that begins with
    'diff' a derivative, unless it mentions integral, integrate or the
    integral sign, which make it an integral; one that begins with 'int'
    is never an equation or a derivative. *)
Theorem first_word_routes (text low : str) :
  (startswith low (lit "plot ") = true -> select_route text low = RPlot)
  /\ (startswith low (lit "limit") = true ->
      select_route text low
      = if integral_words text low then RIntegral else RLimit)
  /\ (startswith low (lit "diff") = true ->
      select_route text low
      = if integral_words text low then RIntegral else RDerivative)
  /\ (startswith low (lit "int") = true ->
      select_route text low
      = if integral_words text low then RIntegral
        else if contains low (lit "limit") then RLimit else RGeneric).
Proof.
  unfold integral_words. split; [|split; [|split]]; intros H;
    destruct (startswith_inv _ _ H) as [r ->];
    unfold select_route, routing_table; cbn [first_match].
  - repeat not_equal. cbn [orb].
    rewrite startswith_self. reflexivity.
  - repeat not_equal. cbn [orb].
    assert (E1 : startswith (lit "limit" ++ r) (lit "plot ") = false)
      by reflexivity.
    rewrite E1, startswith_self. cbn [negb andb].
    rewrite andb_false_r. cbn [andb].
    destruct (contains (lit "limit" ++ r) (lit "integral")
              || contains (lit "limit" ++ r) (lit "integrate")
              || contains text [INTEGRAL_SIGN]); [reflexivity|].
    assert (E2 : startswith (lit "limit" ++ r) (lit "d/d") = false)
      by reflexivity.
    assert (E3 : startswith (lit "limit" ++ r) (lit "diff") = false)
      by reflexivity.
    assert (E4 : startswith (lit "limit" ++ r) (lit "derivative") = false)
      by reflexivity.
    rewrite E2, E3, E4, contains_self. reflexivity.
  - repeat not_equal. cbn [orb].
    assert (E1 : startswith (lit "diff" ++ r) (lit "plot ") = false)
      by reflexivity.
    rewrite E1, startswith_self. cbn [negb andb].
    rewrite !andb_false_r. cbn [andb].
    destruct (contains (lit "diff" ++ r) (lit "integral")
              || contains (lit "diff" ++ r) (lit "integrate")
              || contains text [INTEGRAL_SIGN]); [reflexivity|].
    rewrite orb_true_r. reflexivity.
  - repeat not_equal. cbn [orb].
    assert (E1 : startswith (lit "int" ++ r) (lit "plot ") = false)
      by reflexivity.
    rewrite E1, startswith_self. cbn [negb andb].
    rewrite !andb_false_r. cbn [andb].
    destruct (contains (lit "int" ++ r) (lit "integral")
              || contains (lit "int" ++ r) (lit "integrate")
              || contains text [INTEGRAL_SIGN]); [reflexivity|].
    assert (E2 : startswith (lit "int" ++ r) (lit "d/d") = false)
      by reflexivity.
    assert (E3 : startswith (lit "int" ++ r) (lit "diff") = false)
      by reflexivity.
    assert (E4 : startswith (lit "int" ++ r) (lit "derivative") = false)
      by reflexivity.
    rewrite E2, E3, E4. cbn [orb]. reflexivity.
Qed.

End PrefixRoutes.

(** ** The further properties at work *)

(** X1 at " 2 + 2 ", which holds none of the seven characters. *)
Lemma normalize_charwise_witness :
  normalize (lit " 2 + 2 ") = strip (lit " 2 + 2 ").
Proof.
  apply (proj2 (normalize_charwise (lit " 2 + 2 "))).
  repeat constructor; cbv; intuition discriminate.
Defined.

(** X2 at " x^2 : 4 ". *)
Lemma normalize_output_shape_witness :
  ~ In 94%N (normalize (lit " x^2 : 4 "))
  /\ is_space 120%N = false /\ is_space 52%N = false.
Proof.
  destruct (normalize_output_shape (lit " x^2 : 4 ")) as [H1 [H2 H3]].
  split; [|split].
  - intros H. apply (H1 _ H). cbv. tauto.
  - apply (H2 120%N (lit "**2 / 4")). reflexivity.
  - apply (H3 (lit "x**2 / ") 52%N). reflexivity.
Defined.

(** X3 at "\t x^2 \n". *)
Lemma normalize_ignores_outer_whitespace_witness :
  normalize ([9%N; SPACE] ++ lit "x^2" ++ [SPACE; 10%N])
  = normalize (lit "x^2").
Proof.
  apply normalize_ignores_outer_whitespace; reflexivity.
Defined.

(** X4 at "a=b=c". *)
Lemma equation_split_witness :
  exists left_ right_,
    split1 (lit "=") (lit "a=b=c") = [left_; right_]
    /\ lit "a=b=c" = left_ ++ lit "=" ++ right_
    /\ contains left_ (lit "=") = false.
Proof. apply equation_split. reflexivity. Defined.

(** X5 at "x+1". *)
Lemma handle_equation_without_equals_witness :
  handle_equation scripted (lit "x+1")
  = ret (lit "Tenglamada xato: not enough values to unpack (expected 2, got 1)").
Proof. apply handle_equation_without_equals. reflexivity. Defined.

(** X6 at "x^2-4=0". *)
Lemma handle_equation_solves_witness :
  handle_equation scripted (lit "x^2-4=0")
  = ret (lit "Tenglama: x^2-4 = 0" ++ NL ++ lit "O'zgaruvchi: x" ++ NL
         ++ lit "Yechim: {-2, 2}").
Proof.
  exact (@handle_equation_solves scripted (lit "x^2-4=0")
           (lit "x^2-4") (lit "0") (lit "x**2 - 4") (lit "0")
           (lit "Eq(x**2 - 4, 0)") [lit "x"] [] (lit "x") [] (lit "{-2, 2}")
           eq_refl eq_refl eq_refl eq_refl eq_refl eq_refl eq_refl eq_refl).
Defined.

(** X7 at a line that does not parse. *)
Lemma handlers_answer_shapes_witness :
  Sympy.Ordinary scripted
  /\ exists s, handle_integral ascii_lower scripted (lit "integral )(") = ret s
       /\ (startswith s ([INTEGRAL_SIGN] ++ lit " (") = true
           \/ startswith s (lit "Integral xatosi: ") = true).
Proof.
  split; [exact scripted_ordinary|].
  exact (proj1 (proj2 (@handlers_answer_shapes ascii_lower scripted
                         scripted_ordinary (lit "integral )(")))).
Defined.

(** X8 at "diff(x**3)". *)
Lemma handle_derivative_format_witness :
  handle_derivative ascii_lower scripted (lit "diff(x**3)")
  = ret (lit "d/dx (x**3) = 3*x**2").
Proof.
  exact (@handle_derivative_format ascii_lower scripted (lit "diff(x**3)")
           (lit "x**3") [lit "x"] (lit "3*x**2") eq_refl eq_refl eq_refl).
Defined.

(** X9 at "d/dy x**3" and "d/dx x**3": the derivative is taken with respect
    to x both times. *)
Lemma derivative_drops_first_word_witness :
  derivative_operand ascii_lower (lit "d/dy x**3") = lit "x**3"
  /\ handle_derivative ascii_lower scripted (lit "d/dy x**3")
     = handle_derivative ascii_lower scripted (lit "d/dx x**3")
  /\ handle_derivative ascii_lower scripted (lit "d/dy x**3")
     = ret (lit "d/dx (x**3) = 3*x**2").
Proof.
  destruct (@derivative_drops_first_word ascii_lower scripted
              (lit "d/dy") (lit "d/dx") SPACE (lit "x**3"))
    as [H1 H2]; try reflexivity; try discriminate.
  split; [exact H1|]. split; [exact H2 | reflexivity].
Defined.

(** X10 at "factor(x^2-1)". *)
Lemma handle_other_keyword_witness :
  handle_other ascii_lower scripted_algebra (lit "factor(x^2-1)")
  = ret (lit "Natija: (x - 1)*(x + 1)").
Proof.
  exact (@handle_other_keyword ascii_lower scripted_algebra
           (lit "factor(x^2-1)") (lit "(x - 1)*(x + 1)") eq_refl eq_refl).
Defined.

(** X11 at "  2+3*4 ". *)
Lemma handlers_ignore_outer_whitespace_witness :
  handle_other ascii_lower scripted ([SPACE; SPACE] ++ lit "2+3*4" ++ [SPACE])
  = handle_other ascii_lower scripted (lit "2+3*4").
Proof.
  apply (@handlers_ignore_outer_whitespace ascii_lower scripted
           [SPACE; SPACE] (lit "2+3*4") [SPACE]); reflexivity.
Defined.

(** X12 at "plot x^2", drawn, not drawn for want of matplotlib, and not
    parsed. *)
Lemma handle_plot_outcome_witness :
  handle_plot scripted (lit "plot x^2")
  = ([lit "Grafik chizilmoqda: x**2 ..."], Ok (lit "Grafik yakunlandi."))
  /\ handle_plot scripted_no_matplotlib (lit "plot x^2")
     = ([lit "Grafik chizilmoqda: x**2 ..."], Ok MATPLOTLIB_HINT)
  /\ handle_plot scripted (lit "plot )(")
     = ret (lit "Grafik xatosi: invalid syntax").
Proof.
  destruct (handle_plot_outcome scripted (lit "plot x^2")) as [_ H1].
  destruct (H1 (lit "x**2") eq_refl) as [Hp [Hr _]].
  destruct (handle_plot_outcome scripted_no_matplotlib (lit "plot x^2"))
    as [_ H2].
  destruct (H2 (lit "x**2") eq_refl) as [Hp' [_ Hr']].
  destruct (handle_plot_outcome scripted (lit "plot )(")) as [H3 _].
  split; [|split].
  - apply injective_projections; [exact Hp | exact (Hr eq_refl)].
  - apply injective_projections; [exact Hp'|].
    exact (Hr' (MkExn ImportError (lit "No module named 'matplotlib'"))
             eq_refl eq_refl).
  - exact (H3 (Scripted.error (lit "invalid syntax")) eq_refl eq_refl).
Defined.

(** X13 at a blank line, at " QUIT " and at "Help". *)
Lemma control_lines_witness :
  loop_body ascii_lower scripted (Ok (lit "   ")) = ([PROMPT], Ok Next)
  /\ loop_body ascii_lower scripted (Ok (lit " QUIT "))
     = ([PROMPT; lit "Dastur tugatildi."], Ok Stop)
  /\ loop_body ascii_lower scripted (Ok (lit "Help"))
     = ([PROMPT; USAGE], Ok Next).
Proof.
  split; [|split].
  - apply (proj1 (control_lines ascii_lower scripted (lit "   "))).
    reflexivity.
  - apply (proj1 (proj2 (control_lines ascii_lower scripted (lit " QUIT ")))).
    + vm_compute. discriminate.
    + right. reflexivity.
  - apply (proj2 (proj2 (control_lines ascii_lower scripted (lit "Help")))).
    + vm_compute. discriminate.
    + reflexivity.
Defined.

(** X14 at Ctrl-C typed at the prompt and during an integral. *)
Lemma interrupt_ends_loop_witness :
  loop_body ascii_lower scripted (Raise interrupt)
  = ([PROMPT; NL ++ lit "Dastur to'xtatildi."], Ok Stop)
  /\ loop_body ascii_lower scripted_interrupted (Ok (lit "integral x^2"))
     = ([PROMPT; NL ++ lit "Dastur to'xtatildi."], Ok Stop).
Proof.
  split.
  - exact (proj1 (@interrupt_ends_loop ascii_lower scripted interrupt
                    eq_refl)).
  - exact (proj2 (@interrupt_ends_loop ascii_lower scripted_interrupted
                    interrupt eq_refl)
             (Ok (lit "integral x^2")) [PROMPT] eq_refl).
Defined.

(** X17 at four lines that hold an '='. *)
Lemma first_word_routes_witness :
  route_of "plot y=x^2" = RPlot
  /\ route_of "limit(x**2, x, 2) = 4" = RLimit
  /\ route_of "diff(x**2) = 2*x" = RDerivative
  /\ route_of "int x = 2" = RGeneric.
Proof.
  unfold route_of. split; [|split; [|split]].
  - apply (proj1 (first_word_routes _ _)). reflexivity.
  - apply (proj1 (proj2 (first_word_routes (lit "limit(x**2, x, 2) = 4")
                           (lit "limit(x**2, x, 2) = 4")))).
    reflexivity.
  - apply (proj1 (proj2 (proj2 (first_word_routes (lit "diff(x**2) = 2*x")
                                  (lit "diff(x**2) = 2*x"))))).
    reflexivity.
  - apply (proj2 (proj2 (proj2 (first_word_routes (lit "int x = 2")
                                  (lit "int x = 2"))))).
    reflexivity.
Defined.

(** ** A trailing dx *)

Module ReplaceFacts.

Import PyFacts.

Lemma startswith_nil (s : str) : startswith s [] = true.
Proof. destruct s; reflexivity. Qed.

Lemma startswith_length (s p : str) :
  startswith s p = true -> length p <= length s.
Proof.
  revert s. induction p as [|a p IH]; intros s H; cbn [length]; [lia|].
  destruct s as [|c s]; cbn [startswith] in H; [discriminate|].
  apply andb_true_iff in H. destruct H as [_ H].
  specialize (IH _ H). cbn [length]. lia.
Qed.

(** A pattern without the character [sp] matches before [sp] or not at
    all. *)
Lemma startswith_before (old a : str) (sp : char) (b : str) :
  old <> [] -> ~ In sp old ->
  startswith (a ++ sp :: b) old = startswith a old.
Proof.
  revert a. induction old as [|o old IH]; intros a Hne Hsp; [contradiction|].
  destruct a as [|c a]; cbn [app startswith].
  - destruct (N.eqb_spec sp o) as [->|_]; [|reflexivity].
    exfalso. apply Hsp. left. reflexivity.
  - destruct (c =? o)%N; cbn [andb]; [|reflexivity].
    destruct old as [|o' old'].
    + rewrite !startswith_nil. reflexivity.
    + apply IH; [discriminate|]. intros Hin. apply Hsp. right. exact Hin.
Qed.

Lemma replace_from_before (old new : str) (sp : char) (b : str) :
  old <> [] -> ~ In sp old ->
  forall a skip, skip <= length a ->
    replace_from old new skip (a ++ sp :: b)
    = replace_from old new skip a ++ replace_from old new 0 (sp :: b).
Proof.
  intros Hne Hsp. induction a as [|c a IH]; intros skip Hskip.
  - cbn [length] in Hskip. assert (skip = 0) by lia. subst skip.
    reflexivity.
  - cbn [app replace_from]. destruct skip as [|k].
    + change (c :: a ++ sp :: b) with ((c :: a) ++ sp :: b).
      rewrite (@startswith_before old (c :: a) sp b Hne Hsp).
      destruct (startswith (c :: a) old) eqn:Hm.
      * apply startswith_length in Hm. cbn [length] in Hm.
        rewrite IH by lia. rewrite app_assoc. reflexivity.
      * rewrite IH by (cbn [length]; lia). reflexivity.
    + cbn [length] in Hskip. apply IH. lia.
Qed.

Lemma replace_before (old new : str) (sp : char) (a b : str) :
  old <> [] -> ~ In sp old ->
  replace old new (a ++ sp :: b)
  = replace old new a ++ replace old new (sp :: b).
Proof.
  intros Hne Hsp. destruct old as [|o old]; [contradiction|].
  cbn [replace]. apply replace_from_before; [discriminate | exact Hsp | lia].
Qed.

End ReplaceFacts.

Section TrailingDx.

Import PyFacts StripFacts ReplaceFacts.

Variable lower : str -> str.
Variable B : Sympy.Backend.

Lemma rstrip_last_kept (z : str) (c : char) :
  is_space c = false -> rstrip (z ++ [c]) = z ++ [c].
Proof.
  intros Hc. unfold rstrip. rewrite rev_app_distr. cbn [rev app].
  rewrite (@lstrip_fixed c (rev z) Hc).
  change (c :: rev z) with ([c] ++ rev z).
  rewrite rev_app_distr, rev_involutive. reflexivity.
Qed.

(** Stripping text that was given " dx" at its end. *)
Lemma strip_with_dx (t : str) :
  exists w, strip (t ++ lit " dx") = w ++ lit "dx" /\ strip w = strip t.
Proof.
  destruct (forallb is_space t) eqn:Ht.
  - exists []. split.
    + unfold strip. rewrite (@lstrip_spaces t (lit " dx") Ht). reflexivity.
    + rewrite (@strip_all_space t Ht). reflexivity.
  - exists (lstrip t ++ [SPACE]). split.
    + unfold strip. rewrite (@lstrip_app_not_all t (lit " dx") Ht).
      change (lit " dx") with ([SPACE; 100%N] ++ [120%N]).
      rewrite app_assoc, rstrip_last_kept by reflexivity.
      rewrite <- !app_assoc. reflexivity.
    + change (lstrip t ++ [SPACE]) with ([] ++ lstrip t ++ [SPACE]).
      rewrite strip_padded by reflexivity.
      unfold strip. rewrite lstrip_idem. reflexivity.
Qed.

Lemma endswith_suffix (w p : str) : endswith (w ++ p) p = true.
Proof.
  unfold endswith. rewrite rev_app_distr.
  induction (rev p) as [|a q IH]; [apply startswith_nil|].
  cbn [app startswith]. rewrite N.eqb_refl. exact IH.
Qed.

Lemma slice_to_minus_suffix (w p : str) :
  slice_to_minus (length p) (w ++ p) = w.
Proof.
  unfold slice_to_minus. rewrite length_app.
  replace (length w + length p - length p) with (length w) by lia.
  rewrite firstn_app, firstn_all.
  replace (length w - length w) with 0 by lia.
  rewrite firstn_0. apply app_nil_r.
Qed.

(** Deleting the words of the command leaves an appended " dx" alone. *)
Lemma words_deleted_before_dx (t : str) :
  replace [INTEGRAL_SIGN] []
    (replace (lit "integrate") []
       (replace (lit "integral") [] (t ++ lit " dx")))
  = replace [INTEGRAL_SIGN] []
      (replace (lit "integrate") [] (replace (lit "integral") [] t))
    ++ lit " dx".
Proof.
  change (lit " dx") with (SPACE :: lit "dx").
  rewrite (@replace_before (lit "integral") [] SPACE t (lit "dx"))
    by (cbv; intuition discriminate).
  change (replace (lit "integral") [] (SPACE :: lit "dx"))
    with (SPACE :: lit "dx").
  rewrite (@replace_before (lit "integrate") [] SPACE _ (lit "dx"))
    by (cbv; intuition discriminate).
  change (replace (lit "integrate") [] (SPACE :: lit "dx"))
    with (SPACE :: lit "dx").
  rewrite (@replace_before [INTEGRAL_SIGN] [] SPACE _ (lit "dx"))
    by (cbv; intuition discriminate).
  reflexivity.
Qed.

(** X18. " dx" at the end of an integral is optional: where lowercasing
    leaves the appended " dx" in place, the operand of the line with " dx"
    is the line without it, its command words deleted and stripped, and
    unless that text itself ends in 'dx' both lines get the same answer. *)
Theorem trailing_dx_is_optional (text : str) :
  lower (text ++ lit " dx") = lower text ++ lit " dx" ->
  integral_operand lower (text ++ lit " dx")
  = without_integral_words (lower text)
  /\ (endswith (without_integral_words (lower text)) (lit "dx") = false ->
      handle_integral lower B (text ++ lit " dx")
      = handle_integral lower B text).
Proof.
  intros Hlow.
  assert (E : integral_operand lower (text ++ lit " dx")
              = without_integral_words (lower text)).
  { unfold integral_operand, without_integral_words.
    rewrite Hlow, words_deleted_before_dx.
    destruct (strip_with_dx
                (replace [INTEGRAL_SIGN] []
                   (replace (lit "integrate") []
                      (replace (lit "integral") [] (lower text)))))
      as [w [Hw Hs]].
    rewrite Hw, endswith_suffix.
    change 2 with (length (lit "dx")).
    rewrite slice_to_minus_suffix. exact Hs. }
  split; [exact E|].
  intros Hend. unfold handle_integral. rewrite E.
  unfold integral_operand.
  fold (without_integral_words (lower text)). rewrite Hend. reflexivity.
Qed.

End TrailingDx.

(** X18 at "integral x^2 dx". *)
Lemma trailing_dx_is_optional_witness :
  integral_operand ascii_lower (lit "integral x^2" ++ lit " dx") = lit "x^2"
  /\ handle_integral ascii_lower scripted (lit "integral x^2" ++ lit " dx")
     = handle_integral ascii_lower scripted (lit "integral x^2").
Proof.
  destruct (@trailing_dx_is_optional ascii_lower scripted
              (lit "integral x^2") eq_refl) as [H1 H2].
  split; [exact H1 | exact (H2 eq_refl)].
Defined.

(** ** Every line gets its answer *)

Section Answered.

Import PyFacts.

Variable lower : str -> str.
Variable B : Sympy.Backend.

Lemma limit_answer (text : str) : exists s, handle_limit B text = ret s.
Proof.
  unfold handle_limit, try_parse.
  destruct (Sympy.parse_expr B (normalize text)) as [obj|e].
  - rewrite (bind_ok _ (eq_refl (Ok obj))).
    destruct (Sympy.doit B obj) as [res|e].
    + eexists. reflexivity.
    + exists LIMIT_HINT. cbn. destruct (exn_class e); reflexivity.
  - exists LIMIT_HINT. cbn. destruct (exn_class e); reflexivity.
Qed.

Hypothesis HB : Sympy.Ordinary B.

Lemma plot_answer (text : str) :
  exists s,
    handle_plot B text
    = (match Sympy.parse_expr B (normalize (strip (slice_from 4 text))) with
       | Ok sym =>
           [lit "Grafik chizilmoqda: " ++ Sympy.show B sym ++ lit " ..."]
       | Raise _ => []
       end, Ok s).
Proof.
  unfold handle_plot, try_parse.
  destruct (Sympy.parse_expr B (normalize (strip (slice_from 4 text))))
    as [sym|e] eqn:Hp.
  - rewrite (bind_ok _ (eq_refl (Ok sym))).
    destruct (Sympy.plot B sym) as [[]|e] eqn:Hplot.
    + eexists. reflexivity.
    + pose proof (Sympy.plot_exc HB _ Hplot) as He.
      unfold is_Exception in He. cbn. unfold catches.
      destruct (exn_class e); try discriminate He; eexists; reflexivity.
  - pose proof (Sympy.parse_expr_exc HB _ Hp) as He.
    unfold is_Exception in He. cbn. unfold catches.
    destruct (exn_class e); try discriminate He; eexists; reflexivity.
Qed.

(** X19. With a backend whose errors are instances of [Exception], every
    line that is neither blank nor exit or quit is answered and the loop
    goes on.  Of the program's own prints, the turn shows, after the prompt,
    one text, the answer; only when the line begins with 'plot ' and what
    follows the word parses does a progress line that names the parsed
    expression come before the answer. *)
Theorem every_line_is_answered (raw : str) :
  strip raw <> [] ->
  lower (strip raw) <> lit "exit" ->
  lower (strip raw) <> lit "quit" ->
  exists s,
    loop_body lower B (Ok raw)
    = (PROMPT
       :: (if startswith (lower (strip raw)) (lit "plot ") then
             match Sympy.parse_expr B
                     (normalize (strip (slice_from 4 (strip raw)))) with
             | Ok sym =>
                 [lit "Grafik chizilmoqda: " ++ Sympy.show B sym
                  ++ lit " ..."; s]
             | Raise _ => [s]
             end
           else [s]),
       Ok Next).
Proof.
  intros Hne Hx Hq.
  assert (Hit : iteration lower B (Ok raw)
                = (print PROMPT ;; dispatch lower B (strip raw))).
  { unfold iteration, input, bind, print, call. cbn [app].
    destruct (strip raw) as [|c t]; [contradiction | reflexivity]. }
  unfold loop_body. rewrite Hit. unfold dispatch.
  assert (He : existsb (eqb_str (lower (strip raw)))
                 [lit "exit"; lit "quit"] = false).
  { cbn [existsb].
    destruct (eqb_str_spec (lower (strip raw)) (lit "exit"));
      [contradiction|].
    destruct (eqb_str_spec (lower (strip raw)) (lit "quit"));
      [contradiction|]. reflexivity. }
  rewrite He.
  destruct (eqb_str_spec (lower (strip raw)) (lit "help")) as [Eh|_].
  - rewrite Eh. exists USAGE. reflexivity.
  - destruct (startswith (lower (strip raw)) (lit "plot ")) eqn:Hp.
    + destruct (plot_answer (strip raw)) as [s E]. rewrite E. exists s.
      destruct (Sympy.parse_expr B _); reflexivity.
    + repeat match goal with
             | |- context [if ?c then _ else _] => destruct c
             end.
      * destruct (equation_answer HB (strip raw)) as [s [E _]]. rewrite E.
        exists s. reflexivity.
      * destruct (integral_answer lower HB (strip raw)) as [s [E _]].
        rewrite E. exists s. reflexivity.
      * destruct (derivative_answer lower HB (strip raw)) as [s [E _]].
        rewrite E. exists s. reflexivity.
      * destruct (limit_answer (strip raw)) as [s E]. rewrite E.
        exists s. reflexivity.
      * destruct (other_answer lower HB (strip raw)) as [s [E _]].
        rewrite E. exists s. reflexivity.
Qed.

End Answered.

(** X19 at "x^2-4=0", at "plot x^2" and at "plot )(". *)
Lemma every_line_is_answered_witness :
  (exists s,
     loop_body ascii_lower scripted (Ok (lit "x^2-4=0"))
     = ([PROMPT; s], Ok Next))
  /\ (exists s,
        loop_body ascii_lower scripted (Ok (lit "plot x^2"))
        = ([PROMPT; lit "Grafik chizilmoqda: x**2 ..."; s], Ok Next))
  /\ (exists s,
        loop_body ascii_lower scripted (Ok (lit "plot )("))
        = ([PROMPT; s], Ok Next))
  /\ loop_body ascii_lower scripted (Ok (lit "plot x^2"))
     = ([PROMPT; lit "Grafik chizilmoqda: x**2 ..."; lit "Grafik yakunlandi."],
        Ok Next).
Proof.
  split; [|split; [|split; [|reflexivity]]].
  - apply (@every_line_is_answered ascii_lower scripted scripted_ordinary
             (lit "x^2-4=0")); vm_compute; discriminate.
  - apply (@every_line_is_answered ascii_lower scripted scripted_ordinary
             (lit "plot x^2")); vm_compute; discriminate.
  - apply (@every_line_is_answered ascii_lower scripted scripted_ordinary
             (lit "plot )(")); vm_compute; discriminate.
Defined.

(** ** A limit cannot be interrupted *)

Section LimitTurn.

Variable lower : str -> str.
Variable B : Sympy.Backend.

(** X20. On the limit route nothing the backend raises reaches the loop,
    a [KeyboardInterrupt] included: whatever the backend does, the turn
    prints one answer after the prompt and the loop goes on. *)
Theorem limit_turn_always_continues (raw : str) :
  strip raw <> [] ->
  select_route (strip raw) (lower (strip raw)) = RLimit ->
  exists s, loop_body lower B (Ok raw) = ([PROMPT; s], Ok Next).
Proof.
  intros Hne Hr.
  assert (Hit : iteration lower B (Ok raw)
                = (print PROMPT ;; perform lower B RLimit (strip raw))).
  { rewrite <- Hr, <- dispatch_is_first_match.
    unfold iteration, input, bind, print, call. cbn [app].
    destruct (strip raw) as [|c t]; [contradiction | reflexivity]. }
  unfold loop_body. rewrite Hit. cbn [perform].
  destruct (limit_answer B (strip raw)) as [s E]. rewrite E.
  exists s. reflexivity.
Qed.

End LimitTurn.

(** X20 at a limit during which Ctrl-C is pressed. *)
Lemma limit_turn_always_continues_witness :
  (exists s,
     loop_body ascii_lower scripted_interrupted
       (Ok (lit "limit(sin(x)/x, x, 0)"))
     = ([PROMPT; s], Ok Next))
  /\ loop_body ascii_lower scripted_interrupted
       (Ok (lit "limit(sin(x)/x, x, 0)"))
     = ([PROMPT; LIMIT_HINT], Ok Next).
Proof.
  split; [|reflexivity].
  apply (@limit_turn_always_continues ascii_lower scripted_interrupted
           (lit "limit(sin(x)/x, x, 0)")).
  - vm_compute. discriminate.
  - reflexivity.
Defined.
